(** * MDDecks worker: the search-query compiler and the search handler

    A shallow embedding of [worker/src/handlers/search.js]
    ([buildSearchQuery], [handleSearchRequest]) and of
    [worker/src/utils/jsonResponse.js] ([JsonResponse]), with the
    properties of the search endpoint proved over it.

    Conventions of the embedding.
    - A JavaScript string is a Rocq [string]: the UTF-8 bytes of its text
      (values decoded by [URLSearchParams] are well-formed Unicode).
    - A JavaScript number that the handler manipulates is an integer-valued
      double, an infinity or [NaN]; it is a [JsNumber].  An integer above
      2^53 is rounded to the nearest double, as [parseInt] and [-] do, and
      one too large for a double is an infinity.  [-0] is not told apart
      from [0].
    - [URLSearchParams] is the ordered list of its (name, value) pairs.
    - The accumulators [joins], [conditions] and [bindings] that
      [buildSearchQuery] mutates are threaded explicitly.
    - The one awaited call, [env.DECK_DB.batch], is an explicit constructor
      of the handler's program tree. *)

From Stdlib Require Import Bool List ZArith Lia Ascii String.
From Stdlib Require Import Decimal DecimalNat DecimalString.
Import ListNotations.

Local Open Scope list_scope.
Local Open Scope string_scope.

(** ** JavaScript values *)

Module Js.

(** Numbers: [NaN], an integer-valued double, or an infinity. *)
Inductive JsNumber : Type :=
| NaN
| Num (z : Z)
| PosInf
| NegInf.

(** The double nearest to an integer (ties to the even significand of 53
    bits); from 2^1024 on, an infinity. *)
Definition round_to_double (n : Z) : JsNumber :=
  let a := Z.abs n in
  if (a <? 2 ^ 53)%Z then Num n
  else
    let e := (Z.log2 a - 52)%Z in
    let q := Z.shiftr a e in
    let r := (a - Z.shiftl q e)%Z in
    let half := (2 ^ (e - 1))%Z in
    let q' :=
      if ((half <? r) || ((r =? half) && Z.odd q))%Z then (q + 1)%Z else q in
    let m := (q' * 2 ^ e)%Z in
    if (2 ^ 1024 <=? m)%Z then (if (n <? 0)%Z then NegInf else PosInf)
    else Num (Z.sgn n * m).

(** Values bound to a prepared statement or read from a result row. *)
Inductive JsValue : Type :=
| VString (s : string)
| VNumber (n : JsNumber)
| VNull.

Definition isNaN (n : JsNumber) : bool :=
  match n with NaN => true | _ => false end.

(** [a < b], [a <= b] on numbers: false as soon as one side is [NaN]. *)
Definition lt (a b : JsNumber) : bool :=
  match a, b with
  | Num x, Num y => (x <? y)%Z
  | NegInf, Num _ | NegInf, PosInf | Num _, PosInf => true
  | _, _ => false
  end.

Definition le (a b : JsNumber) : bool :=
  match a, b with
  | Num x, Num y => (x <=? y)%Z
  | NaN, _ | _, NaN => false
  | NegInf, _ | _, PosInf => true
  | _, _ => false
  end.

(** [a - b]: the exact difference, rounded. *)
Definition sub (a b : JsNumber) : JsNumber :=
  match a, b with
  | Num x, Num y => round_to_double (x - y)
  | NaN, _ | _, NaN => NaN
  | PosInf, PosInf | NegInf, NegInf => NaN
  | PosInf, _ | _, NegInf => PosInf
  | NegInf, _ | _, PosInf => NegInf
  end.

(** [Math.floor(x / 1000)] for a time value [x] (an integer of at most
    8.64e15 in magnitude, where the quotient is exact enough for the floor),
    an infinity or [NaN]. *)
Definition floor_div_1000 (x : JsNumber) : JsNumber :=
  match x with
  | Num ms => Num (ms / 1000)
  | NaN => NaN
  | PosInf => PosInf
  | NegInf => NegInf
  end.

(** Truthiness, as [||] tests it. *)
Definition truthy (v : JsValue) : bool :=
  match v with
  | VString s => negb (s =? "")
  | VNumber NaN => false
  | VNumber (Num z) => negb (z =? 0)%Z
  | VNumber _ => true
  | VNull => false
  end.

(** [String(i)] for an array index [i]: its decimal digits. *)
Definition index_to_string (i : nat) : string :=
  NilEmpty.string_of_uint (Nat.to_uint i).

(** *** White space

    [String.prototype.trim] and [parseInt] skip the code points of
    WhiteSpace and LineTerminator.  On UTF-8 text these are six ASCII bytes,
    U+00A0 (two bytes) and a few three-byte sequences. *)

Definition is_ascii_ws (c : ascii) : bool :=
  let n := nat_of_ascii c in
  (((9 <=? n) && (n <=? 13)) || (n =? 32))%nat.

Definition is_ws2 (c1 c2 : ascii) : bool :=
  ((nat_of_ascii c1 =? 194) && (nat_of_ascii c2 =? 160))%nat.

Definition is_ws3 (c1 c2 c3 : ascii) : bool :=
  let a := nat_of_ascii c1 in
  let b := nat_of_ascii c2 in
  let c := nat_of_ascii c3 in
  (((a =? 225) && (b =? 154) && (c =? 128))                      (* U+1680 *)
  || ((a =? 226) && (b =? 128) && (128 <=? c) && (c <=? 138))    (* U+2000..U+200A *)
  || ((a =? 226) && (b =? 128) && ((c =? 168) || (c =? 169)))    (* U+2028, U+2029 *)
  || ((a =? 226) && (b =? 128) && (c =? 175))                    (* U+202F *)
  || ((a =? 226) && (b =? 129) && (c =? 159))                    (* U+205F *)
  || ((a =? 227) && (b =? 128) && (c =? 128))                    (* U+3000 *)
  || ((a =? 239) && (b =? 187) && (c =? 191)))%nat.              (* U+FEFF *)

Fixpoint trimStart (s : string) : string :=
  match s with
  | EmptyString => s
  | String c1 r1 =>
      if is_ascii_ws c1 then trimStart r1
      else
        match r1 with
        | EmptyString => s
        | String c2 r2 =>
            if is_ws2 c1 c2 then trimStart r2
            else
              match r2 with
              | EmptyString => s
              | String c3 r3 => if is_ws3 c1 c2 c3 then trimStart r3 else s
              end
        end
  end.

Fixpoint trimEnd (s : string) : string :=
  match s with
  | EmptyString => EmptyString
  | String c r =>
      if trimStart s =? "" then EmptyString else String c (trimEnd r)
  end.

Definition trim (s : string) : string := trimEnd (trimStart s).

(** *** [parseInt(s, 10)] *)

Definition digit_value (c : ascii) : option Z :=
  let n := nat_of_ascii c in
  if ((48 <=? n) && (n <=? 57))%nat then Some (Z.of_nat (n - 48)) else None.

(** The longest run of decimal digits at the head of [s], folded into
    [acc]; [seen] records whether a digit was consumed. *)
Fixpoint parse_digits (s : string) (seen : bool) (acc : Z) : option Z :=
  match s with
  | EmptyString => if seen then Some acc else None
  | String c r =>
      match digit_value c with
      | Some d => parse_digits r true (10 * acc + d)
      | None => if seen then Some acc else None
      end
  end.

(** The digits are read as a mathematical integer, which is then rounded
    to a double. *)
Definition parseInt (s : string) : JsNumber :=
  let body := trimStart s in
  let '(negative, digits) :=
    match body with
    | String "-" r => (true, r)
    | String "+" r => (false, r)
    | _ => (false, body)
    end in
  match parse_digits digits false 0 with
  | Some n => round_to_double (if negative then - n else n)%Z
  | None => NaN
  end.

(** *** [String.prototype.split] on a one-character separator and
    [Array.prototype.join] *)

Fixpoint split (sep : ascii) (s : string) : list string :=
  match s with
  | EmptyString => [EmptyString]
  | String c r =>
      if Ascii.eqb c sep then EmptyString :: split sep r
      else
        match split sep r with
        | [] => [String c EmptyString]
        | w :: ws => String c w :: ws
        end
  end.

Definition join (sep : string) (l : list string) : string :=
  String.concat sep l.

(** A nullable string inside a template literal or handed to [parseInt]. *)
Definition to_string (v : option string) : string :=
  match v with
  | Some s => s
  | None => "null"
  end.

(** [v || d] on a nullable string: the empty string is falsy too. *)
Definition or_default (v : option string) (d : string) : string :=
  match v with
  | Some s => if s =? "" then d else s
  | None => d
  end.

End Js.

(** ** [URLSearchParams] *)

Definition URLSearchParams : Type := list (string * string).

Module Params.

Definition getAll (params : URLSearchParams) (name : string) : list string :=
  map snd (filter (fun kv => fst kv =? name) params).

Definition get (params : URLSearchParams) (name : string) : option string :=
  match find (fun kv => fst kv =? name) params with
  | Some kv => Some (snd kv)
  | None => None
  end.

Definition has (params : URLSearchParams) (name : string) : bool :=
  existsb (fun kv => fst kv =? name) params.

(** [params.delete(name)]: the pairs of every other name, in order. *)
Definition delete (params : URLSearchParams) (name : string)
    : URLSearchParams :=
  filter (fun kv => negb (fst kv =? name)) params.

End Params.

(** ** What the JavaScript engine supplies

    [Date.parse] is implementation-defined outside the ISO format: it is a
    parameter, giving the milliseconds since the epoch or [NaN].
    [TypeError_message] is the engine's text for reading a property of
    [undefined]. *)

Class Runtime : Type := {
  Date_parse : string -> Js.JsNumber;
  TypeError_message : string
}.

(** ** The query compiler: [buildSearchQuery] *)

Module Compiler.
Import Js.

Record Options : Type := mkOptions {
  limit : JsNumber;
  offset : JsNumber;
  reverse : bool
}.

(** [options = {}] with the destructuring defaults. *)
Definition default_options : Options :=
  {| limit := Num 10; offset := Num 0; reverse := false |}.

Record Query : Type := mkQuery {
  sql : string;
  params : list JsValue
}.

(** The three mutable locals of [buildSearchQuery]: [joins] is a [Set],
    kept in insertion order; [conditions] and [bindings] are arrays. *)
Record Acc : Type := mkAcc {
  joins : list string;
  conditions : list string;
  bindings : list JsValue
}.

Definition empty : Acc := mkAcc [] [] [].

Definition joins_add (j : string) (a : Acc) : Acc :=
  if in_dec string_dec j (joins a) then a
  else mkAcc (joins a ++ [j])%list (conditions a) (bindings a).

Definition conditions_push (c : string) (a : Acc) : Acc :=
  mkAcc (joins a) (conditions a ++ [c])%list (bindings a).

Definition bindings_push (v : JsValue) (a : Acc) : Acc :=
  mkAcc (joins a) (conditions a) (bindings a ++ [v])%list.

(** Statements run in sequence. *)
Definition seq_ (s1 s2 : Acc -> Acc) : Acc -> Acc := fun a => s2 (s1 a).
Infix ";;" := seq_ (at level 61, left associativity).

Definition skip : Acc -> Acc := fun a => a.

(** [array.forEach((x, i) => body)], from index [i]. *)
Fixpoint forEach {A : Type} (body : A -> nat -> Acc -> Acc)
    (l : list A) (i : nat) (a : Acc) : Acc :=
  match l with
  | [] => a
  | x :: r => forEach body r (S i) (body x i a)
  end.

Definition is_letter (c : ascii) : bool :=
  let n := nat_of_ascii c in
  (((65 <=? n) && (n <=? 90)) || ((97 <=? n) && (n <=? 122)))%nat.

(** [s.replace(/[^a-zA-Z]/g, '')] *)
Fixpoint keep_letters (s : string) : string :=
  match s with
  | EmptyString => EmptyString
  | String c r =>
      if is_letter c then String c (keep_letters r) else keep_letters r
  end.

(** Line 29: the alias of occurrence [i] of [paramName]. *)
Definition alias_of (paramName : string) (i : nat) : string :=
  keep_letters paramName ++ index_to_string i.

Definition processMultiParamFilter (params : URLSearchParams)
    (paramName : string) (joinLogic : string -> string -> Acc -> Acc)
    : Acc -> Acc :=
  let values := Params.getAll params paramName in
  forEach
    (fun value i =>
       let alias := alias_of paramName i in
       joinLogic value alias)
    values 0.

Definition like (value : string) : JsValue := VString ("%" ++ value ++ "%").

Definition deck_name_filter (params : URLSearchParams) : Acc -> Acc :=
  if Params.has params "deck_name" then
    conditions_push "D.deck_name LIKE ?" ;;
    bindings_push (like (to_string (Params.get params "deck_name")))
  else skip.

Definition allowed_lang (l : string) : bool :=
  existsb (String.eqb l) ["cn"; "en"; "jp"].

Definition langs_of (params : URLSearchParams) : list string :=
  filter allowed_lang
    (map trim (split "," (or_default (Params.get params "lang") "cn"))).

Definition card_occurrence (langs : list string) (query : string) (i : nat)
    : Acc -> Acc :=
  let alias := "card" ++ index_to_string i in
  joins_add ("JOIN DeckCards AS DC_" ++ alias
             ++ " ON D.deck_id = DC_" ++ alias ++ ".deck_id") ;;
  joins_add ("JOIN Cards AS C_" ++ alias
             ++ " ON DC_" ++ alias ++ ".card_id = C_" ++ alias ++ ".id") ;;
  (let langConditions :=
     map (fun lang => "C_" ++ alias ++ "." ++ lang ++ "_name LIKE ?") langs in
   let allConditions :=
     join " OR "
       (langConditions
          ++ [("C_" ++ alias ++ ".card_text_desc LIKE ?")%string])%list in
   conditions_push ("(" ++ allConditions ++ ")")) ;;
  forEach (fun _ _ => bindings_push (like query)) langs 0 ;;
  bindings_push (like query).

Definition card_filter (params : URLSearchParams) : Acc -> Acc :=
  let cardQueries := Params.getAll params "card" in
  if (0 <? List.length cardQueries)%nat then
    let langs := langs_of params in
    if (0 <? List.length langs)%nat then
      forEach (card_occurrence langs) cardQueries 0
    else skip
  else skip.

Definition race_joinLogic (raceName alias : string) : Acc -> Acc :=
  joins_add ("JOIN DeckCards AS DC_" ++ alias
             ++ " ON D.deck_id = DC_" ++ alias ++ ".deck_id") ;;
  joins_add ("JOIN CardToRace AS CTR_" ++ alias
             ++ " ON DC_" ++ alias ++ ".card_id = CTR_" ++ alias ++ ".card_id") ;;
  joins_add ("JOIN Races AS R_" ++ alias
             ++ " ON CTR_" ++ alias ++ ".race_code = R_" ++ alias ++ ".race_code") ;;
  conditions_push ("R_" ++ alias ++ ".race_name LIKE ?") ;;
  bindings_push (like raceName).

Definition attribute_joinLogic (attributeName alias : string) : Acc -> Acc :=
  joins_add ("JOIN DeckCards AS DC_" ++ alias
             ++ " ON D.deck_id = DC_" ++ alias ++ ".deck_id") ;;
  joins_add ("JOIN CardToAttribute AS CTA_" ++ alias
             ++ " ON DC_" ++ alias ++ ".card_id = CTA_" ++ alias ++ ".card_id") ;;
  joins_add ("JOIN Attributes AS A_" ++ alias
             ++ " ON CTA_" ++ alias ++ ".attribute_code = A_" ++ alias
             ++ ".attribute_code") ;;
  conditions_push ("A_" ++ alias ++ ".attribute_name LIKE ?") ;;
  bindings_push (like attributeName).

Definition type_joinLogic (typeName alias : string) : Acc -> Acc :=
  joins_add ("JOIN DeckCards AS DC_" ++ alias
             ++ " ON D.deck_id = DC_" ++ alias ++ ".deck_id") ;;
  joins_add ("JOIN CardToType AS CTT_" ++ alias
             ++ " ON DC_" ++ alias ++ ".card_id = CTT_" ++ alias ++ ".card_id") ;;
  joins_add ("JOIN CardTypes AS CT_" ++ alias
             ++ " ON CTT_" ++ alias ++ ".type_code = CT_" ++ alias ++ ".type_code") ;;
  conditions_push ("CT_" ++ alias ++ ".type_name LIKE ?") ;;
  bindings_push (like typeName).

Definition setcode_joinLogic (setcode alias : string) : Acc -> Acc :=
  joins_add ("JOIN DeckCards AS DC_" ++ alias
             ++ " ON D.deck_id = DC_" ++ alias ++ ".deck_id") ;;
  joins_add ("JOIN CardToSetcode AS CTS_" ++ alias
             ++ " ON DC_" ++ alias ++ ".card_id = CTS_" ++ alias ++ ".card_id") ;;
  joins_add ("JOIN Setcodes AS S_" ++ alias
             ++ " ON CTS_" ++ alias ++ ".set_code = S_" ++ alias ++ ".set_code") ;;
  conditions_push ("S_" ++ alias ++ ".set_name_cn LIKE ?") ;;
  bindings_push (like setcode).

Section WithRuntime.
Context {rt : Runtime}.

Definition range_filters (params : URLSearchParams) : Acc -> Acc :=
  (if Params.has params "likes_ge" then
     conditions_push "D.deck_like >= ?" ;;
     bindings_push (VNumber (parseInt (to_string (Params.get params "likes_ge"))))
   else skip) ;;
  (if Params.has params "likes_le" then
     conditions_push "D.deck_like <= ?" ;;
     bindings_push (VNumber (parseInt (to_string (Params.get params "likes_le"))))
   else skip) ;;
  (if Params.has params "after_date" then
     conditions_push "D.upload_date >= ?" ;;
     bindings_push
       (VNumber (floor_div_1000
                   (Date_parse (to_string (Params.get params "after_date")))))
   else skip) ;;
  (if Params.has params "before_date" then
     conditions_push "D.upload_date <= ?" ;;
     bindings_push
       (VNumber (floor_div_1000
                   (Date_parse (to_string (Params.get params "before_date")))))
   else skip).

(** Lines 34-104: every filter, in the order of the source, run on the
    empty accumulators. *)
Definition filters (params : URLSearchParams) : Acc :=
  (deck_name_filter params ;;
   card_filter params ;;
   processMultiParamFilter params "race" race_joinLogic ;;
   processMultiParamFilter params "attribute" attribute_joinLogic ;;
   processMultiParamFilter params "type" type_joinLogic ;;
   processMultiParamFilter params "setcode" setcode_joinLogic ;;
   range_filters params) empty.

Definition buildSearchQuery (params : URLSearchParams) (isCountQuery : bool)
    (options : Options) : Query :=
  let baseSelect :=
    if isCountQuery then "SELECT COUNT(DISTINCT D.deck_id) FROM Decks AS D"
    else "SELECT DISTINCT D.* FROM Decks AS D" in
  let acc := filters params in
  let sql := baseSelect in
  let sql :=
    if (0 <? List.length (joins acc))%nat
    then sql ++ " " ++ join " " (joins acc) else sql in
  let sql :=
    if (0 <? List.length (conditions acc))%nat
    then sql ++ " WHERE " ++ join " AND " (conditions acc) else sql in
  if negb isCountQuery then
    let orderDirection := if reverse options then "ASC" else "DESC" in
    let sortBy := or_default (Params.get params "order") "rate" in
    let orderByClause :=
      if sortBy =? "date" then
        " ORDER BY D.update_date " ++ orderDirection
        ++ ", D.deck_like " ++ orderDirection
      else
        " ORDER BY D.deck_like " ++ orderDirection
        ++ ", D.update_date " ++ orderDirection in
    let sql := sql ++ orderByClause in
    let sql := sql ++ " LIMIT ? OFFSET ?" in
    mkQuery sql
      (bindings acc ++ [VNumber (limit options); VNumber (offset options)])%list
  else
    mkQuery sql (bindings acc).

End WithRuntime.

End Compiler.

(** ** The storage engine's interface (Cloudflare D1) and the response *)

Module D1.
Import Js.

(** A result row: column name to value. *)
Definition Row : Type := list (string * JsValue).

(** [row[column]]; [None] is [undefined]. *)
Definition column (row : Row) (name : string) : option JsValue :=
  match find (fun kv => fst kv =? name) row with
  | Some kv => Some (snd kv)
  | None => None
  end.

Record D1Result : Type := mkResult {
  success : bool;
  results : option (list Row);
  error : option string
}.

(** [DECK_DB.prepare(sql).bind(...values)]: built locally, no storage
    call. *)
Record PreparedStatement : Type := mkStatement {
  statement : string;
  values : list JsValue
}.

Definition prepare (sql : string) : PreparedStatement := mkStatement sql [].

Definition bind (s : PreparedStatement) (vs : list JsValue)
    : PreparedStatement :=
  mkStatement (statement s) vs.

(** How the promise of [DECK_DB.batch] of two statements settles: it
    rejects with an error, or resolves to one result per statement. *)
Inductive BatchOutcome : Type :=
| Rejected (message : string)
| Resolved (dataResult countResult : D1Result).

End D1.

Module Handler.
Import Js D1 Compiler.

(** The object handed to [JsonResponse]. *)
Inductive Body : Type :=
| Failure (error : string)
| Success (total : JsValue) (start : JsNumber) (size : nat) (list : list Row).

Record Response : Type := mkResponse {
  status : nat;
  headers : list (string * string);
  payload : Body
}.

(** [JsonResponse(data, status)]; the payload stands for its JSON text. *)
Definition JsonResponse (data : Body) (status : nat) : Response :=
  let headers :=
    [("Content-Type", "application/json;charset=UTF-8");
     ("Access-Control-Allow-Origin", "*");
     ("Access-Control-Allow-Methods", "GET, POST, PUT, DELETE, OPTIONS");
     ("Access-Control-Allow-Headers", "Content-Type, Authorization")] in
  mkResponse status headers data.

(** The handler as a program: it returns a response, or awaits one
    [DECK_DB.batch] call and goes on with how it settled.  (The
    [console.error] lines are not modelled.) *)
Inductive Program : Type :=
| Return (r : Response)
| AwaitBatch (statements : list PreparedStatement)
    (next : BatchOutcome -> Program).

(** Running a program against a storage engine: the response and the
    batches submitted, in order. *)
Fixpoint run (db : list PreparedStatement -> BatchOutcome) (p : Program)
    : Response * list (list PreparedStatement) :=
  match p with
  | Return r => (r, [])
  | AwaitBatch statements next =>
      let '(r, calls) := run db (next (db statements)) in
      (r, statements :: calls)
  end.

Definition storage_calls (db : list PreparedStatement -> BatchOutcome)
    (p : Program) : nat :=
  List.length (snd (run db p)).

(** Lines 143-169: the pagination block.  [inl] is its early [return]. *)
Definition pagination (searchParams : URLSearchParams)
    : Response + (JsNumber * JsNumber) :=
  let limit := Num 10 in
  let offset := Num 0 in
  let startParam := Params.get searchParams "start" in
  let endParam := Params.get searchParams "end" in
  let sizeParam := Params.get searchParams "size" in
  match startParam with
  | Some startParam =>
      let start := parseInt startParam in
      if isNaN start || lt start (Num 0) then
        inl (JsonResponse
               (Failure "无效的 'start' 参数，必须为非负整数。") 400)
      else
        let offset := start in
        match endParam with
        | Some endParam =>
            let end_ := parseInt endParam in
            if isNaN end_ || le end_ start then
              inl (JsonResponse
                     (Failure "无效的 'end' 参数，必须是大于 'start' 的整数。") 400)
            else
              let limit := sub end_ start in
              inr (limit, offset)
        | None =>
            match sizeParam with
            | Some sizeParam =>
                let size := parseInt sizeParam in
                if isNaN size || le size (Num 0) then
                  inl (JsonResponse
                         (Failure "无效的 'size' 参数，必须为正整数。") 400)
                else
                  let limit := size in
                  inr (limit, offset)
            | None => inr (limit, offset)
            end
        end
  | None => inr (limit, offset)
  end.

Section WithRuntime.
Context {rt : Runtime}.

(** Line 192 and lines 194-202, once both results report success. *)
Definition shape (offset : JsNumber) (dataResult countResult : D1Result)
    : Response :=
  match results countResult with
  | Some (row0 :: _) =>
      let total :=
        match column row0 "COUNT(DISTINCT D.deck_id)" with
        | Some v => if truthy v then v else VNumber (Num 0)
        | None => VNumber (Num 0)
        end in
      JsonResponse
        (Success total offset
           (match results dataResult with
            | Some rows => List.length rows
            | None => 0
            end)
           (match results dataResult with
            | Some rows => rows
            | None => []
            end))
        200
  | _ =>
      (* [countResult.results[0]] is undefined: the property read throws,
         and the [catch] answers *)
      JsonResponse (Failure ("服务器内部错误: " ++ TypeError_message)) 500
  end.

(** Lines 171-207. *)
Definition execute (searchParams : URLSearchParams)
    (limit offset : JsNumber) : Program :=
  let reverse :=
    match Params.get searchParams "reverse" with
    | Some v => v =? "true"
    | None => false
    end in
  let queryOptions := mkOptions limit offset reverse in
  let query := buildSearchQuery searchParams false queryOptions in
  let countQuery := buildSearchQuery searchParams true default_options in
  AwaitBatch
    [bind (prepare (sql query)) (params query);
     bind (prepare (sql countQuery)) (params countQuery)]
    (fun outcome =>
       match outcome with
       | Rejected message =>
           Return (JsonResponse (Failure ("服务器内部错误: " ++ message)) 500)
       | Resolved dataResult countResult =>
           if negb (success dataResult) || negb (success countResult) then
             Return (JsonResponse (Failure "数据库查询失败。") 500)
           else
             Return (shape offset dataResult countResult)
       end).

Definition handleSearchRequest (searchParams : URLSearchParams) : Program :=
  match pagination searchParams with
  | inl response => Return response
  | inr (limit, offset) => execute searchParams limit offset
  end.

End WithRuntime.

End Handler.

(** ** A sample engine

    A stand-in for the engine in the examples: its [Date.parse] reads the
    one format the API documents, [YYYY-MM-DD], as midnight UTC, with a day
    of 1 to 31 in any month (a day past the end of the month runs into the
    next one, as in V8), and gives [NaN] for every other text, among them
    the date-times an engine also accepts.  The theorems hold for any
    [Runtime]; only examples use this one. *)

Module Sample.
Import Js.

Definition days_from_civil (y m d : Z) : Z :=
  let y' := if (m <=? 2)%Z then (y - 1)%Z else y in
  let era := (y' / 400)%Z in
  let yoe := (y' - era * 400)%Z in
  let mp := if (2 <? m)%Z then (m - 3)%Z else (m + 9)%Z in
  let doy := ((153 * mp + 2) / 5 + d - 1)%Z in
  let doe := (yoe * 365 + yoe / 4 - yoe / 100 + doy)%Z in
  (era * 146097 + doe - 719468)%Z.

Definition digits (l : list ascii) : option Z :=
  fold_left
    (fun acc c =>
       match acc, digit_value c with
       | Some n, Some d => Some (10 * n + d)%Z
       | _, _ => None
       end)
    l (Some 0%Z).

Definition parse_ymd (s : string) : JsNumber :=
  match list_ascii_of_string s with
  | [y1; y2; y3; y4; "-"; m1; m2; "-"; d1; d2]%char =>
      match digits [y1; y2; y3; y4], digits [m1; m2], digits [d1; d2] with
      | Some y, Some m, Some d =>
          if ((1 <=? m) && (m <=? 12) && (1 <=? d) && (d <=? 31))%Z
          then Num (days_from_civil y m d * 86400000)
          else NaN
      | _, _, _ => NaN
      end
  | _ => NaN
  end.

#[export] Instance runtime : Runtime := {|
  Date_parse := parse_ymd;
  TypeError_message := "Cannot read properties of undefined"
|}.

End Sample.


(** * Vocabulary of the statements

    Nothing below is part of the program: these definitions name what the
    theorems talk about. *)

Import D1 Compiler Handler.

(** ** What a statement of the compiler does to the accumulators

    [effect f js cs bs]: running [f] keeps every join already present, leaves
    the joins [js] in the set, and appends exactly [cs] to the conditions
    and [bs] to the bindings. *)

Definition effect (f : Acc -> Acc) (js cs : list string)
    (bs : list Js.JsValue) : Prop :=
  forall a,
    incl (joins a) (joins (f a))
    /\ incl js (joins (f a))
    /\ conditions (f a) = (conditions a ++ cs)%list
    /\ bindings (f a) = (bindings a ++ bs)%list.

(** The fragments gathered by a [forEach], occurrence by occurrence. *)
Fixpoint collect {A B : Type} (g : A -> nat -> list B) (l : list A) (i : nat)
    : list B :=
  match l with
  | [] => []
  | x :: r => (g x i ++ collect g r (S i))%list
  end.

(** ** The categorical filters *)

Inductive Categorical : Type := Race | Attribute | CardType | Setcode.

Definition param_name (k : Categorical) : string :=
  match k with
  | Race => "race"
  | Attribute => "attribute"
  | CardType => "type"
  | Setcode => "setcode"
  end.

Definition joinLogic_of (k : Categorical) : string -> string -> Acc -> Acc :=
  match k with
  | Race => race_joinLogic
  | Attribute => attribute_joinLogic
  | CardType => type_joinLogic
  | Setcode => setcode_joinLogic
  end.

(** The LIKE condition of an occurrence, under its alias. *)
Definition condition_of (k : Categorical) (alias : string) : string :=
  match k with
  | Race => "R_" ++ alias ++ ".race_name LIKE ?"
  | Attribute => "A_" ++ alias ++ ".attribute_name LIKE ?"
  | CardType => "CT_" ++ alias ++ ".type_name LIKE ?"
  | Setcode => "S_" ++ alias ++ ".set_name_cn LIKE ?"
  end.

(** The three joins of an occurrence: membership, association, lookup. *)
Definition joins_of (k : Categorical) (alias : string) : list string :=
  ("JOIN DeckCards AS DC_" ++ alias ++ " ON D.deck_id = DC_" ++ alias
   ++ ".deck_id")
  :: match k with
     | Race =>
         [ "JOIN CardToRace AS CTR_" ++ alias ++ " ON DC_" ++ alias
           ++ ".card_id = CTR_" ++ alias ++ ".card_id";
           "JOIN Races AS R_" ++ alias ++ " ON CTR_" ++ alias
           ++ ".race_code = R_" ++ alias ++ ".race_code" ]
     | Attribute =>
         [ "JOIN CardToAttribute AS CTA_" ++ alias ++ " ON DC_" ++ alias
           ++ ".card_id = CTA_" ++ alias ++ ".card_id";
           "JOIN Attributes AS A_" ++ alias ++ " ON CTA_" ++ alias
           ++ ".attribute_code = A_" ++ alias ++ ".attribute_code" ]
     | CardType =>
         [ "JOIN CardToType AS CTT_" ++ alias ++ " ON DC_" ++ alias
           ++ ".card_id = CTT_" ++ alias ++ ".card_id";
           "JOIN CardTypes AS CT_" ++ alias ++ " ON CTT_" ++ alias
           ++ ".type_code = CT_" ++ alias ++ ".type_code" ]
     | Setcode =>
         [ "JOIN CardToSetcode AS CTS_" ++ alias ++ " ON DC_" ++ alias
           ++ ".card_id = CTS_" ++ alias ++ ".card_id";
           "JOIN Setcodes AS S_" ++ alias ++ " ON CTS_" ++ alias
           ++ ".set_code = S_" ++ alias ++ ".set_code" ]
     end.

Definition occurrences (params : URLSearchParams) (k : Categorical) : nat :=
  List.length (Params.getAll params (param_name k)).

Definition aliases (params : URLSearchParams) (k : Categorical)
    : list string :=
  map (alias_of (param_name k)) (seq 0 (occurrences params k)).

Definition categorical_conditions (params : URLSearchParams)
    (k : Categorical) : list string :=
  map (condition_of k) (aliases params k).

Definition categorical_bindings (params : URLSearchParams)
    (k : Categorical) : list Js.JsValue :=
  map like (Params.getAll params (param_name k)).

(** ** The other filters *)

Definition deck_name_conditions (params : URLSearchParams) : list string :=
  if Params.has params "deck_name" then ["D.deck_name LIKE ?"] else [].

Definition deck_name_bindings (params : URLSearchParams)
    : list Js.JsValue :=
  if Params.has params "deck_name"
  then [like (Js.to_string (Params.get params "deck_name"))] else [].

Section Vocabulary.
Context {rt : Runtime}.

(** The value bound for a range parameter, as the source computes it. *)
Definition likes_bound (params : URLSearchParams) (name : string)
    : Js.JsNumber :=
  Js.parseInt (Js.to_string (Params.get params name)).

Definition date_bound (params : URLSearchParams) (name : string)
    : Js.JsNumber :=
  Js.floor_div_1000 (Date_parse (Js.to_string (Params.get params name))).

Definition range_conditions (params : URLSearchParams) : list string :=
  ((if Params.has params "likes_ge" then ["D.deck_like >= ?"] else [])
   ++ (if Params.has params "likes_le" then ["D.deck_like <= ?"] else [])
   ++ (if Params.has params "after_date" then ["D.upload_date >= ?"] else [])
   ++ (if Params.has params "before_date" then ["D.upload_date <= ?"]
       else []))%list.

Definition range_bindings (params : URLSearchParams) : list Js.JsValue :=
  ((if Params.has params "likes_ge"
    then [Js.VNumber (likes_bound params "likes_ge")] else [])
   ++ (if Params.has params "likes_le"
       then [Js.VNumber (likes_bound params "likes_le")] else [])
   ++ (if Params.has params "after_date"
       then [Js.VNumber (date_bound params "after_date")] else [])
   ++ (if Params.has params "before_date"
       then [Js.VNumber (date_bound params "before_date")] else []))%list.

(** A range parameter that is present and whose value does not parse. *)
Definition malformed_range (params : URLSearchParams) : Prop :=
  (Params.has params "likes_ge" = true
   /\ Js.parseInt (Js.to_string (Params.get params "likes_ge")) = Js.NaN)
  \/ (Params.has params "likes_le" = true
      /\ Js.parseInt (Js.to_string (Params.get params "likes_le")) = Js.NaN)
  \/ (Params.has params "after_date" = true
      /\ Date_parse (Js.to_string (Params.get params "after_date")) = Js.NaN)
  \/ (Params.has params "before_date" = true
      /\ Date_parse (Js.to_string (Params.get params "before_date"))
         = Js.NaN).

(** ** The text of a compiled statement *)

(** The text that follows the projection: the joins, then the WHERE
    clause. *)
Definition joins_text (js : list string) : string :=
  match js with
  | [] => ""
  | _ :: _ => " " ++ Js.join " " js
  end.

Definition where_text (cs : list string) : string :=
  match cs with
  | [] => ""
  | _ :: _ => " WHERE " ++ Js.join " AND " cs
  end.

Definition count_projection : string :=
  "SELECT COUNT(DISTINCT D.deck_id) FROM Decks AS D".

Definition data_projection : string := "SELECT DISTINCT D.* FROM Decks AS D".

(** The primary and the secondary sort column, and the direction. *)
Definition sort_keys (params : URLSearchParams) : string * string :=
  if Js.or_default (Params.get params "order") "rate" =? "date"
  then ("D.update_date", "D.deck_like")
  else ("D.deck_like", "D.update_date").

Definition direction (reverse : bool) : string :=
  if reverse then "ASC" else "DESC".

Definition order_by_text (params : URLSearchParams) (reverse : bool)
    : string :=
  " ORDER BY " ++ fst (sort_keys params) ++ " " ++ direction reverse
  ++ ", " ++ snd (sort_keys params) ++ " " ++ direction reverse.

(** ** The handler *)

(** The statements of the batch a program awaits first (none when it
    returns at once). *)
Definition submitted (p : Program) : list PreparedStatement :=
  match p with
  | AwaitBatch statements _ => statements
  | Return _ => []
  end.

(** A program that answers 400 without reaching the storage engine. *)
Definition rejects_with_400 (p : Program) : Prop :=
  exists r, p = Return r /\ status r = 400.

(** The text of the data statement that [execute] submits. *)
Definition data_sql (params : URLSearchParams) (limit offset : Js.JsNumber)
    : string :=
  match submitted (execute params limit offset) with
  | data :: _ => statement data
  | [] => ""
  end.

End Vocabulary.

(** [needle] occurs in [text]. *)
Definition contains (needle text : string) : Prop :=
  exists n, String.index 0 needle text = Some n.

(** ** Requests and a storage engine for the examples *)

Module Example.

Definition card_unknown_lang : URLSearchParams :=
  [("card", "Ash Blossom"); ("lang", "xx")].

Definition malformed_likes : URLSearchParams := [("likes_ge", "abc")].

Definition malformed_date : URLSearchParams := [("after_date", "soon")].

Definition two_races : URLSearchParams :=
  [("race", "Dragon"); ("type", "Spell"); ("race", "Warrior")].

Definition start_end : URLSearchParams := [("start", "10"); ("end", "30")].

Definition start_size : URLSearchParams := [("start", "0"); ("size", "20")].


Definition end_and_size_only : URLSearchParams :=
  [("end", "abc"); ("size", "0")].




Definition by_date_reversed : URLSearchParams :=
  [("order", "date"); ("reverse", "true")].

Definition page_of_fifty : URLSearchParams :=
  [("start", "0"); ("size", "50")].

Definition deck (id : Z) : Row :=
  [("deck_id", Js.VNumber (Js.Num id)); ("deck_name", Js.VString "deck")].

(** An engine holding five matching decks. *)
Definition five_decks (statements : list PreparedStatement) : BatchOutcome :=
  Resolved
    (mkResult true (Some [deck 1; deck 2; deck 3; deck 4; deck 5]) None)
    (mkResult true
       (Some [[("COUNT(DISTINCT D.deck_id)", Js.VNumber (Js.Num 5))]]) None).

End Example.

(** * Further vocabulary *)

(** ** Placeholders and clauses *)

(** The number of [?] placeholders in a piece of SQL text. *)
Fixpoint placeholders (s : string) : nat :=
  match s with
  | EmptyString => 0
  | String c r => (if Ascii.eqb c "?" then 1 else 0) + placeholders r
  end.

(** A WHERE condition together with the values bound to its placeholders,
    in order. *)
Definition Clause : Type := (string * list Js.JsValue)%type.

(** The elements of an array with their indices. *)
Definition indexed {A : Type} (l : list A) : list (nat * A) :=
  combine (seq 0 (List.length l)) l.

(** The columns a card occurrence is matched against: one name column per
    language, then the description. *)
Definition card_columns (langs : list string) : list string :=
  (map (fun lang => (lang ++ "_name")%string) langs
   ++ ["card_text_desc"])%list.

(** The condition of occurrence [i] of [card]: its columns, each under the
    occurrence's [Cards] alias, ORed inside parentheses. *)
Definition card_condition (langs : list string) (i : nat) : string :=
  "("
  ++ Js.join " OR "
       (map (fun column =>
               "C_card" ++ Js.index_to_string i ++ "." ++ column ++ " LIKE ?")
          (card_columns langs))
  ++ ")".

Definition card_clauses (params : URLSearchParams) : list Clause :=
  match langs_of params with
  | [] => []
  | langs =>
      map (fun iq =>
             (card_condition langs (fst iq),
              repeat (like (snd iq)) (S (List.length langs))))
        (indexed (Params.getAll params "card"))
  end.

Definition deck_name_clauses (params : URLSearchParams) : list Clause :=
  match Params.get params "deck_name" with
  | Some v => [("D.deck_name LIKE ?", [like v])]
  | None => []
  end.

Definition categorical_clauses (params : URLSearchParams) (k : Categorical)
    : list Clause :=
  map (fun iv =>
         (condition_of k (alias_of (param_name k) (fst iv)),
          [like (snd iv)]))
    (indexed (Params.getAll params (param_name k))).

Section FurtherVocabulary.
Context {rt : Runtime}.

(** The clause of a range parameter, when it is present. *)
Definition range_clause (params : URLSearchParams) (name condition : string)
    (read : string -> Js.JsNumber) : list Clause :=
  match Params.get params name with
  | Some v => [(condition, [Js.VNumber (read v)])]
  | None => []
  end.

Definition read_date (v : string) : Js.JsNumber :=
  Js.floor_div_1000 (Date_parse v).

Definition range_clauses (params : URLSearchParams) : list Clause :=
  (range_clause params "likes_ge" "D.deck_like >= ?" Js.parseInt
   ++ range_clause params "likes_le" "D.deck_like <= ?" Js.parseInt
   ++ range_clause params "after_date" "D.upload_date >= ?" read_date
   ++ range_clause params "before_date" "D.upload_date <= ?" read_date)%list.

(** Every clause of a request, in the order of the WHERE clause. *)
Definition clauses (params : URLSearchParams) : list Clause :=
  (deck_name_clauses params
   ++ card_clauses params
   ++ categorical_clauses params Race
   ++ categorical_clauses params Attribute
   ++ categorical_clauses params CardType
   ++ categorical_clauses params Setcode
   ++ range_clauses params)%list.

End FurtherVocabulary.

(** ** Which parameters are read *)

(** The parameters whose values are bound, never written into the text. *)
Definition bound_names : list string :=
  ["deck_name"; "card"; "race"; "attribute"; "type"; "setcode";
   "likes_ge"; "likes_le"; "after_date"; "before_date"].

(** Every parameter [buildSearchQuery] reads. *)
Definition compiler_names : list string :=
  (bound_names ++ ["lang"; "order"])%list.

(** Every parameter [handleSearchRequest] reads, itself or through the
    compiler. *)
Definition handler_names : list string :=
  (compiler_names ++ ["start"; "end"; "size"; "reverse"])%list.

(** ** Statements of the compiler, by what they emit *)

(** [emits f cls]: [f] appends the conditions of [cls] to the condition
    list and their values, in the same order, to the bindings. *)
Definition emits (f : Acc -> Acc) (cls : list Clause) : Prop :=
  exists js, effect f js (map fst cls) (List.concat (map snd cls)).

(** No join of the set holds a placeholder. *)
Definition clean (a : Acc) : Prop :=
  Forall (fun j => placeholders j = 0%nat) (joins a).

Definition keeps_clean (f : Acc -> Acc) : Prop :=
  forall a, clean a -> clean (f a).

(** ** Accumulators with the same text *)

Definition same_text (a a' : Acc) : Prop :=
  joins a = joins a' /\ conditions a = conditions a'.

(** Two statements that, from accumulators with the same text, lead to
    accumulators with the same text. *)
Definition text_equiv (f f' : Acc -> Acc) : Prop :=
  forall a a', same_text a a' -> same_text (f a) (f' a').

(** ** The joins of a request *)

(** The number of spaces in a piece of text. *)
Fixpoint spaces (s : string) : nat :=
  match s with
  | EmptyString => 0
  | String c r => (if Ascii.eqb c " " then 1 else 0) + spaces r
  end.

(** The two joins of occurrence [i] of [card]. *)
Definition card_joins_of (i : nat) : list string :=
  let alias := "card" ++ Js.index_to_string i in
  [ "JOIN DeckCards AS DC_" ++ alias ++ " ON D.deck_id = DC_" ++ alias
    ++ ".deck_id";
    "JOIN Cards AS C_" ++ alias ++ " ON DC_" ++ alias ++ ".card_id = C_"
    ++ alias ++ ".id" ].

(** What owns a join: the card filter or a categorical filter. *)
Inductive Owner : Type :=
| OfCard
| OfCategorical (k : Categorical).

Definition owner_joins (o : Owner) (i : nat) : list string :=
  match o with
  | OfCard => card_joins_of i
  | OfCategorical k => joins_of k (alias_of (param_name k) i)
  end.

Definition owner_occurrences (params : URLSearchParams) (o : Owner) : nat :=
  match o with
  | OfCard =>
      match langs_of params with
      | [] => 0
      | _ :: _ => List.length (Params.getAll params "card")
      end
  | OfCategorical k => occurrences params k
  end.

(** The joins of an owner, occurrence after occurrence. *)
Definition joins_by (params : URLSearchParams) (o : Owner) : list string :=
  flat_map (owner_joins o) (seq 0 (owner_occurrences params o)).

(** Every join of a request, in the order the filters run. *)
Definition all_joins (params : URLSearchParams) : list string :=
  (joins_by params OfCard
   ++ joins_by params (OfCategorical Race)
   ++ joins_by params (OfCategorical Attribute)
   ++ joins_by params (OfCategorical CardType)
   ++ joins_by params (OfCategorical Setcode))%list.

(** [adds f js]: on a join set the joins [js] are new to, [f] appends
    exactly [js]. *)
Definition adds (f : Acc -> Acc) (js : list string) : Prop :=
  forall a, NoDup (joins a ++ js) -> joins (f a) = (joins a ++ js)%list.

(** ** Around the occurrences of one categorical filter *)

Section AroundCategorical.
Context {rt : Runtime}.

(** The clauses that come before those of filter [k] in the WHERE clause,
    and those that come after. *)
Definition clauses_before (params : URLSearchParams) (k : Categorical)
    : list Clause :=
  (deck_name_clauses params ++ card_clauses params
   ++ match k with
      | Race => []
      | Attribute => categorical_clauses params Race
      | CardType =>
          categorical_clauses params Race
          ++ categorical_clauses params Attribute
      | Setcode =>
          categorical_clauses params Race
          ++ categorical_clauses params Attribute
          ++ categorical_clauses params CardType
      end)%list.

Definition clauses_after (params : URLSearchParams) (k : Categorical)
    : list Clause :=
  (match k with
   | Race =>
       categorical_clauses params Attribute
       ++ categorical_clauses params CardType
       ++ categorical_clauses params Setcode
   | Attribute =>
       categorical_clauses params CardType
       ++ categorical_clauses params Setcode
   | CardType => categorical_clauses params Setcode
   | Setcode => []
   end ++ range_clauses params)%list.

End AroundCategorical.

(** The joins written before those of filter [k], and those written
    after. *)
Definition joins_before (params : URLSearchParams) (k : Categorical)
    : list string :=
  (joins_by params OfCard
   ++ match k with
      | Race => []
      | Attribute => joins_by params (OfCategorical Race)
      | CardType =>
          joins_by params (OfCategorical Race)
          ++ joins_by params (OfCategorical Attribute)
      | Setcode =>
          joins_by params (OfCategorical Race)
          ++ joins_by params (OfCategorical Attribute)
          ++ joins_by params (OfCategorical CardType)
      end)%list.

Definition joins_after (params : URLSearchParams) (k : Categorical)
    : list string :=
  match k with
  | Race =>
      (joins_by params (OfCategorical Attribute)
       ++ joins_by params (OfCategorical CardType)
       ++ joins_by params (OfCategorical Setcode))%list
  | Attribute =>
      (joins_by params (OfCategorical CardType)
       ++ joins_by params (OfCategorical Setcode))%list
  | CardType => joins_by params (OfCategorical Setcode)
  | Setcode => []
  end.

(** ** The fragments a statement is made of *)

(** The conditions that are fixed texts. *)
Definition fixed_conditions : list string :=
  ["D.deck_name LIKE ?"; "D.deck_like >= ?"; "D.deck_like <= ?";
   "D.upload_date >= ?"; "D.upload_date <= ?"].

(** The four ORDER BY clauses. *)
Definition order_by_clauses : list string :=
  [" ORDER BY D.deck_like DESC, D.update_date DESC";
   " ORDER BY D.deck_like ASC, D.update_date ASC";
   " ORDER BY D.update_date DESC, D.deck_like DESC";
   " ORDER BY D.update_date ASC, D.deck_like ASC"].

(** A condition that holds no text of the request: a fixed text, the
    condition of a categorical occurrence (a fixed text around an
    occurrence index), or a card condition over allow-listed languages. *)
Definition closed_condition (c : string) : Prop :=
  In c fixed_conditions
  \/ (exists k i, c = condition_of k (alias_of (param_name k) i))
  \/ (exists langs i,
        incl langs ["cn"; "en"; "jp"] /\ c = card_condition langs i).

(** A join that holds no text of the request: a join of some occurrence
    index of some filter. *)
Definition closed_join (j : string) : Prop :=
  exists o i, In j (owner_joins o i).

(** * The router: [worker/index.js], with the stub handlers and the API
    documentation *)

Module Router.

(** A JSON value handed to [JSON.stringify]; objects keep the order of
    their keys. *)
#[warnings="-register-all"]
Inductive Json : Type :=
| JString (s : string)
| JBool (b : bool)
| JObject (fields : list (string * Json)).

(** The data of a response: the envelope of the search handler, or another
    object literal. *)
Inductive Payload : Type :=
| Envelope (b : Handler.Body)
| Object (fields : list (string * Json)).

(** A [Response]; [body] is [None] for a [null] body. *)
Record Response : Type := mkResponse {
  status : nat;
  headers : list (string * string);
  body : option Payload
}.

(** [JsonResponse(data, status)] of [utils/jsonResponse.js], on any
    object. *)
Definition JsonResponse (data : Payload) (status : nat) : Response :=
  let headers :=
    [("Content-Type", "application/json;charset=UTF-8");
     ("Access-Control-Allow-Origin", "*");
     ("Access-Control-Allow-Methods", "GET, POST, PUT, DELETE, OPTIONS");
     ("Access-Control-Allow-Headers", "Content-Type, Authorization")] in
  mkResponse status headers (Some data).

(** The response of the search handler, as the router passes it on. *)
Definition of_handler (r : Handler.Response) : Response :=
  mkResponse (Handler.status r) (Handler.headers r)
    (Some (Envelope (Handler.payload r))).

(** The part of a [Request] the worker reads: the method, and the path and
    the search parameters of its URL. *)
Record Request : Type := mkRequest {
  method : string;
  pathname : string;
  searchParams : URLSearchParams
}.

(** What a handler can throw, as the router's [catch] sees it: [null] or
    [undefined], or any other value, whose [message] property reads as a
    string or as [undefined]. *)
Inductive Thrown : Type :=
| Nullish
| Value (message : option string).

(** What can escape [fetch]: the [TypeError] its own [catch] raises when
    it reads [e.name] of a nullish [e]. *)
Inductive CatchError : Type :=
| TypeErrorInCatch.

(** An asynchronous computation that can throw an [E]: it resolves to a
    response, throws, never settles, or awaits a batch of the storage
    engine. *)
Inductive Task (E : Type) : Type :=
| Respond (r : Response)
| Throw (e : E)
| Pending
| Await (statements : list PreparedStatement)
    (next : BatchOutcome -> Task E).

Arguments Respond {E} r.
Arguments Throw {E} e.
Arguments Pending {E}.
Arguments Await {E} statements next.

(** How a task that gives no response ends. *)
Inductive Unanswered (E : Type) : Type :=
| Escaped (e : E)
| NeverSettles.

Arguments Escaped {E} e.
Arguments NeverSettles {E}.

(** Running a task against a storage engine: how it ends and the batches
    submitted. *)
Fixpoint run {E : Type} (db : list PreparedStatement -> BatchOutcome)
    (t : Task E) : (Response + Unanswered E) * list (list PreparedStatement) :=
  match t with
  | Respond r => (inl r, [])
  | Throw e => (inr (Escaped e), [])
  | Pending => (inr NeverSettles, [])
  | Await statements next =>
      let '(end_, calls) := run db (next (db statements)) in
      (end_, statements :: calls)
  end.

(** A program of the search handler as a task. *)
Fixpoint lift {E : Type} (p : Handler.Program) : Task E :=
  match p with
  | Handler.Return r => Respond (of_handler r)
  | Handler.AwaitBatch statements next =>
      Await statements (fun outcome => lift (next outcome))
  end.

(** [utils/apiDocs.js]: the object of [getApiDocs()]. *)
Definition getApiDocs : list (string * Json) :=
  [
   ("message",
    JString "请求的端点不存在。请检查以下可用的端点和参数。");
   ("available_endpoints",
    JObject
       [
       ("GET /api/decks/search",
        JObject
           [
           ("description",
            JString "根据多种条件搜索卡组。可以按点赞数或日期排序。");
           ("query_parameters",
            JObject
               [
               ("deck_name",
                JString "按卡组标题模糊搜索。示例: `?deck_name=珠泪`");
               ("card",
                JString "搜索包含此名称或描述的卡片的卡组（模糊匹配）。需要 `lang` 参数。可多次使用以实现 AND 逻辑。示例: `?card=灰流丽&card=增殖的G`");
               ("lang",
                JString "为 `card` 参数指定搜索语言。可以是逗号分隔的列表 (`cn`, `en`, `jp`)。默认为 `cn`。示例: `?lang=en,jp`");
               ("order",
                JString "排序依据。可选值为 `rate` (按点赞数) 或 `date` (按更新日期)。默认为 `rate`。示例: `?order=date`");
               ("setcode",
                JString "按系列/字段名模糊搜索。示例: `?setcode=HERO`");
               ("type",
                JString "按卡片类型精确过滤。示例: `?type=魔法卡`");
               ("race",
                JString "按卡片种族精确过滤。示例: `?race=龙族`");
               ("attribute",
                JString "按卡片属性精确过滤。示例: `?attribute=光`");
               ("likes_ge",
                JString "筛选点赞数大于或等于 N 的卡组。示例: `?likes_ge=10`");
               ("likes_le",
                JString "筛选点赞数小于或等于 N 的卡组。示例: `?likes_le=50`");
               ("after_date",
                JString "筛选在此日期之后（含）上传的卡组 (格式: YYYY-MM-DD)。示例: `?after_date=2023-01-01`");
               ("before_date",
                JString "筛选在此日期之前（含）上传的卡组 (格式: YYYY-MM-DD)。示例: `?before_date=2023-12-31`");
               ("reverse",
                JString "反转默认排序（从点赞最多变为最少）。示例: `?reverse=true`")
               ]);
           ("pagination_parameters",
            JObject
               [
               ("方案一",
                JString "使用 `start` 和 `size`。`start` 是从 0 开始的索引。`size` 是返回的结果数量 (必须 > 0)。示例: `?start=0&size=20`");
               ("方案二",
                JString "使用 `start` 和 `end`。返回从 `start` 到 `end`（不含）的结果。`end` 必须大于 `start`。示例: `?start=10&end=30`");
               ("默认值",
                JString "如果没有提供分页参数，默认为 `start=0` 和 `size=10`。")
               ])
           ]);
       ("POST /api/decks/create",
        JString "创建新卡组 (尚未实现)");
       ("PUT /api/decks/update",
        JString "更新现有卡组 (尚未实现)");
       ("DELETE /api/decks/delete",
        JString "删除卡组 (尚未实现)");
       ("POST /api/decks/rate",
        JString "为卡组点赞 (尚未实现)")
       ])
  ].

(** [handlers/create.js] and [handlers/update.js]: stubs. *)
Definition handleCreateRequest (request : Request) : Task Thrown :=
  Respond
    (JsonResponse
       (Object
          [("success", JBool false);
           ("error", JString "Not Implemented");
           ("message", JString "卡组创建功能尚未实现。")])
       501).

Definition handleUpdateRequest (request : Request) : Task Thrown :=
  Respond
    (JsonResponse
       (Object
          [("success", JBool false);
           ("error", JString "Not Implemented");
           ("message", JString "卡组更新功能尚未实现。")])
       501).

(** The [try]/[catch] of the router around a task.  The [catch] reads
    [e.name] and [e.message]: on a nullish [e] the read throws and the
    error escapes; otherwise it answers 500, and [JSON.stringify] leaves an
    undefined [message] out. *)
Fixpoint try_catch (t : Task Thrown) : Task CatchError :=
  match t with
  | Respond r => Respond r
  | Throw Nullish => Throw TypeErrorInCatch
  | Throw (Value message) =>
      Respond
        (JsonResponse
           (Object
              ([("success", JBool false);
                ("error", JString "Internal Server Error")]
               ++ match message with
                  | Some m => [("message", JString m)]
                  | None => []
                  end)%list)
           500)
  | Pending => Pending
  | Await statements next =>
      Await statements (fun outcome => try_catch (next outcome))
  end.

Definition method_not_allowed (error : string) : Task Thrown :=
  Respond
    (JsonResponse
       (Object [("success", JBool false); ("error", JString error)]) 405).

Section Fetch.
Context {rt : Runtime}.

(** [handlers/delete.js] and [handlers/rate.js] are outside this
    development: the router is taken over any two handlers. *)
Variable handleDeleteRequest : Request -> Task Thrown.
Variable handleRateRequest : Request -> Task Thrown.

Definition fetch (request : Request) : Task CatchError :=
  if method request =? "OPTIONS" then
    let headers :=
      [("Access-Control-Allow-Origin", "*");
       ("Access-Control-Allow-Methods", "GET, POST, PUT, DELETE, OPTIONS");
       ("Access-Control-Allow-Headers", "Content-Type, Authorization")] in
    Respond (mkResponse 204 headers None)
  else
    try_catch
      (if pathname request =? "/api/decks/search" then
         if negb (method request =? "GET")
         then method_not_allowed "Method Not Allowed"
         else lift (handleSearchRequest (searchParams request))
       else if pathname request =? "/api/decks/create" then
         if negb (method request =? "POST")
         then method_not_allowed "Method Not Allowed"
         else handleCreateRequest request
       else if pathname request =? "/api/decks/update" then
         if negb (method request =? "PUT") && negb (method request =? "POST")
         then method_not_allowed "Method Not Allowed. Use PUT or POST."
         else handleUpdateRequest request
       else if pathname request =? "/api/decks/delete" then
         if negb (method request =? "DELETE")
            && negb (method request =? "POST")
         then method_not_allowed "Method Not Allowed. Use DELETE or POST."
         else handleDeleteRequest request
       else if pathname request =? "/api/decks/rate" then
         if negb (method request =? "POST")
         then method_not_allowed "Method Not Allowed"
         else handleRateRequest request
       else
         Respond
           (JsonResponse
              (Object
                 (("success", JBool false)
                  :: ("error", JString "Not Found")
                  :: getApiDocs))
              404)).

End Fetch.



(** The routes of the switch in [fetch], and the methods each accepts. *)
Definition routes : list (string * list string) :=
  [("/api/decks/search", ["GET"]);
   ("/api/decks/create", ["POST"]);
   ("/api/decks/update", ["PUT"; "POST"]);
   ("/api/decks/delete", ["DELETE"; "POST"]);
   ("/api/decks/rate", ["POST"])].

End Router.

(** ** More requests for the examples *)

Module MoreExamples.

Definition tagged : URLSearchParams :=
  [("utm_source", "mail"); ("race", "Dragon"); ("start", "0");
   ("race", "Warrior")].

Definition untagged : URLSearchParams :=
  [("start", "0"); ("race", "Dragon"); ("race", "Warrior")].

Definition hostile : URLSearchParams :=
  [("deck_name", "x%' OR 1=1 --"); ("race", "? ; DROP TABLE Decks")].

Definition harmless : URLSearchParams :=
  [("deck_name", "Hero"); ("race", "Dragon")].

Definition sorted_only : URLSearchParams :=
  [("order", "date"); ("lang", "en")].


(** A [size] of 310 digits, beyond every finite double. *)
Definition huge_size : URLSearchParams :=
  [("start", "0");
   ("size", "9999999999999999999999999999999999999999999999999999999999999999999999999999999999999999999999999999999999999999999999999999999999999999999999999999999999999999999999999999999999999999999999999999999999999999999999999999999999999999999999999999999999999999999999999999999999999999999999999999999999999999999999")].



(** An engine whose count statement fails. *)
Definition failing_count (statements : list PreparedStatement)
    : BatchOutcome :=
  Resolved
    (mkResult true (Some [Example.deck 1]) None)
    (mkResult false None (Some "D1_ERROR: no such table: Decks")).

(** A handler that throws an [Error]. *)
Definition throwing (request : Router.Request) : Router.Task Router.Thrown :=
  Router.Throw (Router.Value (Some "not implemented")).




Definition get_search : Router.Request :=
  Router.mkRequest "GET" "/api/decks/search" Example.page_of_fifty.

Definition put_rate : Router.Request :=
  Router.mkRequest "PUT" "/api/decks/rate" [].

Definition post_search : Router.Request :=
  Router.mkRequest "POST" "/api/decks/search" [].

Definition get_unknown : Router.Request :=
  Router.mkRequest "GET" "/api/decks/list" [].

End MoreExamples.

(** * Properties *)

(** ** The embedding on small inputs *)

Example parseInt_decimal : Js.parseInt "10" = Js.Num 10.
Proof. reflexivity. Qed.

Example parseInt_leading_space_and_sign :
  Js.parseInt "  -42px" = Js.Num (-42).
Proof. reflexivity. Qed.

Example parseInt_not_a_number : Js.parseInt "abc" = Js.NaN.
Proof. reflexivity. Qed.

Example parseInt_empty : Js.parseInt "" = Js.NaN.
Proof. reflexivity. Qed.

Example split_on_comma :
  Js.split "," "en, jp,,x" = ["en"; " jp"; ""; "x"].
Proof. reflexivity. Qed.

Example trim_both_ends : Js.trim "  jp  " = "jp".
Proof. reflexivity. Qed.

Example langs_keep_the_allowed :
  langs_of [("lang", "en, jp,xx")] = ["en"; "jp"].
Proof. reflexivity. Qed.

Example langs_default : langs_of [] = ["cn"].
Proof. reflexivity. Qed.

Example sample_date : Sample.parse_ymd "2023-01-01" = Js.Num 1672531200000.
Proof. reflexivity. Qed.

Example compile_card_in_two_languages :
  buildSearchQuery (rt := Sample.runtime)
    [("card", "Ash"); ("lang", "en,jp"); ("likes_ge", "5")] true
    default_options
  = mkQuery
      "SELECT COUNT(DISTINCT D.deck_id) FROM Decks AS D JOIN DeckCards AS DC_card0 ON D.deck_id = DC_card0.deck_id JOIN Cards AS C_card0 ON DC_card0.card_id = C_card0.id WHERE (C_card0.en_name LIKE ? OR C_card0.jp_name LIKE ? OR C_card0.card_text_desc LIKE ?) AND D.deck_like >= ?"
      [Js.VString "%Ash%"; Js.VString "%Ash%"; Js.VString "%Ash%";
       Js.VNumber (Js.Num 5)].
Proof. reflexivity. Qed.

Example compile_two_races :
  sql (buildSearchQuery (rt := Sample.runtime) Example.two_races true
         default_options)
  = "SELECT COUNT(DISTINCT D.deck_id) FROM Decks AS D JOIN DeckCards AS DC_race0 ON D.deck_id = DC_race0.deck_id JOIN CardToRace AS CTR_race0 ON DC_race0.card_id = CTR_race0.card_id JOIN Races AS R_race0 ON CTR_race0.race_code = R_race0.race_code JOIN DeckCards AS DC_race1 ON D.deck_id = DC_race1.deck_id JOIN CardToRace AS CTR_race1 ON DC_race1.card_id = CTR_race1.card_id JOIN Races AS R_race1 ON CTR_race1.race_code = R_race1.race_code JOIN DeckCards AS DC_type0 ON D.deck_id = DC_type0.deck_id JOIN CardToType AS CTT_type0 ON DC_type0.card_id = CTT_type0.card_id JOIN CardTypes AS CT_type0 ON CTT_type0.type_code = CT_type0.type_code WHERE R_race0.race_name LIKE ? AND R_race1.race_name LIKE ? AND CT_type0.type_name LIKE ?".
Proof. reflexivity. Qed.

(** ** Strings and lists *)

Lemma append_assoc (a b c : string) : (a ++ b) ++ c = a ++ (b ++ c).
Proof.
  induction a as [|ch a IH]; simpl; [reflexivity | now rewrite IH].
Qed.

Lemma append_empty_r (a : string) : a ++ "" = a.
Proof.
  induction a as [|ch a IH]; simpl; [reflexivity | now rewrite IH].
Qed.

Lemma append_inj_l (a b c : string) : a ++ b = a ++ c -> b = c.
Proof.
  induction a as [|ch a IH]; simpl; intros H; [exact H|].
  injection H as H. auto.
Qed.

Lemma index_to_string_inj (i j : nat) :
  Js.index_to_string i = Js.index_to_string j -> i = j.
Proof.
  unfold Js.index_to_string. intros H.
  apply DecimalNat.Unsigned.to_uint_inj.
  assert (E : NilEmpty.uint_of_string (NilEmpty.string_of_uint (Nat.to_uint i))
              = NilEmpty.uint_of_string (NilEmpty.string_of_uint (Nat.to_uint j)))
    by now rewrite H.
  rewrite !NilEmpty.usu in E. now injection E.
Qed.

Lemma alias_of_inj (name : string) (i j : nat) :
  alias_of name i = alias_of name j -> i = j.
Proof.
  unfold alias_of. intros H.
  apply index_to_string_inj. eapply append_inj_l. exact H.
Qed.

Lemma NoDup_map_seq {A : Type} (f : nat -> A) (start len : nat) :
  (forall i j, f i = f j -> i = j) -> NoDup (map f (seq start len)).
Proof.
  intros Hinj. revert start.
  induction len as [|len IH]; intros start; simpl; constructor.
  - rewrite in_map_iff. intros (j & Hj & Hin).
    apply Hinj in Hj. subst j. apply in_seq in Hin. lia.
  - apply IH.
Qed.

(** ** The accumulators, statement by statement *)

Lemma effect_skip : effect skip [] [] [].
Proof.
  intros a. unfold skip. rewrite !app_nil_r.
  repeat split; auto using incl_refl, incl_nil_l.
Qed.

Lemma effect_joins_add (j : string) : effect (joins_add j) [j] [] [].
Proof.
  intros a. unfold joins_add.
  destruct (in_dec string_dec j (joins a)) as [Hin|Hout]; simpl;
    rewrite ?app_nil_r; repeat split; auto using incl_refl.
  - intros x [<-|[]]. exact Hin.
  - apply incl_appl, incl_refl.
  - apply incl_appr, incl_refl.
Qed.

Lemma effect_conditions_push (c : string) :
  effect (conditions_push c) [] [c] [].
Proof.
  intros a. unfold conditions_push. simpl. rewrite app_nil_r.
  repeat split; auto using incl_refl, incl_nil_l.
Qed.

Lemma effect_bindings_push (v : Js.JsValue) :
  effect (bindings_push v) [] [] [v].
Proof.
  intros a. unfold bindings_push. simpl. rewrite app_nil_r.
  repeat split; auto using incl_refl, incl_nil_l.
Qed.

Lemma effect_seq (f g : Acc -> Acc) js1 cs1 bs1 js2 cs2 bs2 :
  effect f js1 cs1 bs1 -> effect g js2 cs2 bs2 ->
  effect (f ;; g) (js1 ++ js2) (cs1 ++ cs2) (bs1 ++ bs2).
Proof.
  intros Hf Hg a. unfold seq_.
  destruct (Hf a) as (Hk1 & Hj1 & Hc1 & Hb1).
  destruct (Hg (f a)) as (Hk2 & Hj2 & Hc2 & Hb2).
  repeat split.
  - eapply incl_tran; eassumption.
  - apply incl_app; [eapply incl_tran; eassumption | assumption].
  - rewrite Hc2, Hc1. now rewrite app_assoc.
  - rewrite Hb2, Hb1. now rewrite app_assoc.
Qed.

Lemma effect_forEach {A : Type} (body : A -> nat -> Acc -> Acc)
    (js cs : A -> nat -> list string) (bs : A -> nat -> list Js.JsValue)
    (l : list A) :
  (forall x i, effect (body x i) (js x i) (cs x i) (bs x i)) ->
  forall i,
    effect (forEach body l i) (collect js l i) (collect cs l i)
      (collect bs l i).
Proof.
  intros Hbody.
  induction l as [|x r IH]; intros i.
  - apply effect_skip.
  - change (forEach body (x :: r) i) with (body x i ;; forEach body r (S i)).
    simpl collect. apply effect_seq; [apply Hbody | apply IH].
Qed.

Lemma effect_eq (f : Acc -> Acc) js cs bs js' cs' bs' :
  effect f js cs bs -> js = js' -> cs = cs' -> bs = bs' ->
  effect f js' cs' bs'.
Proof. now intros H <- <- <-. Qed.

Ltac effect_step :=
  lazymatch goal with
  | |- effect (_ ;; _) _ _ _ => apply effect_seq
  | |- effect (joins_add _) _ _ _ => apply effect_joins_add
  | |- effect (conditions_push _) _ _ _ => apply effect_conditions_push
  | |- effect (bindings_push _) _ _ _ => apply effect_bindings_push
  | |- effect skip _ _ _ => apply effect_skip
  end.

Ltac effect_steps := eapply effect_eq; [ repeat effect_step | .. ].

Lemma collect_by_index {A B : Type} (g : nat -> B) (l : list A) (i : nat) :
  collect (fun _ k => [g k]) l i = map g (seq i (List.length l)).
Proof.
  revert i. induction l as [|x r IH]; intros i; simpl; [reflexivity|].
  now rewrite IH.
Qed.

Lemma collect_by_value {A B : Type} (g : A -> B) (l : list A) (i : nat) :
  collect (fun x _ => [g x]) l i = map g l.
Proof.
  revert i. induction l as [|x r IH]; intros i; simpl; [reflexivity|].
  now rewrite IH.
Qed.

Lemma collect_incl_at {A B : Type} (g : nat -> list B) (l : list A)
    (i k : nat) :
  (i <= k < i + List.length l)%nat -> incl (g k) (collect (fun _ n => g n) l i).
Proof.
  revert i. induction l as [|x r IH]; intros i Hk; simpl in *; [lia|].
  destruct (Nat.eq_dec k i) as [->|Hne].
  - apply incl_appl, incl_refl.
  - apply incl_appr, IH. lia.
Qed.

(** ** The filters *)

Lemma joinLogic_effect (k : Categorical) (value alias : string) :
  effect (joinLogic_of k value alias) (joins_of k alias)
    [condition_of k alias] [like value].
Proof.
  destruct k; cbn [joinLogic_of];
    unfold race_joinLogic, attribute_joinLogic, type_joinLogic,
      setcode_joinLogic;
    effect_steps; reflexivity.
Qed.

Lemma processMultiParamFilter_effect (params : URLSearchParams)
    (k : Categorical) :
  effect (processMultiParamFilter params (param_name k) (joinLogic_of k))
    (collect (fun _ i => joins_of k (alias_of (param_name k) i))
       (Params.getAll params (param_name k)) 0)
    (categorical_conditions params k)
    (categorical_bindings params k).
Proof.
  unfold processMultiParamFilter, categorical_conditions, aliases,
    categorical_bindings, occurrences.
  eapply effect_eq.
  - apply effect_forEach. intros x i. apply joinLogic_effect.
  - reflexivity.
  - rewrite (collect_by_index
               (fun i => condition_of k (alias_of (param_name k) i))).
    now rewrite map_map.
  - apply collect_by_value.
Qed.

Lemma deck_name_filter_effect (params : URLSearchParams) :
  effect (deck_name_filter params) []
    (deck_name_conditions params) (deck_name_bindings params).
Proof.
  unfold deck_name_filter, deck_name_conditions, deck_name_bindings.
  destruct (Params.has params "deck_name").
  - effect_steps; reflexivity.
  - apply effect_skip.
Qed.

Lemma card_occurrence_effect (langs : list string) (query : string)
    (i : nat) :
  exists js cs bs, effect (card_occurrence langs query i) js cs bs.
Proof.
  unfold card_occurrence. do 3 eexists.
  repeat effect_step.
  apply effect_forEach with
    (js := fun _ _ => []) (cs := fun _ _ => [])
    (bs := fun _ _ => [like query]).
  intros. apply effect_bindings_push.
Qed.

Lemma forEach_some_effect {A : Type} (body : A -> nat -> Acc -> Acc)
    (l : list A) :
  (forall x i, exists js cs bs, effect (body x i) js cs bs) ->
  forall i, exists js cs bs, effect (forEach body l i) js cs bs.
Proof.
  intros Hbody. induction l as [|x r IH]; intros i.
  - do 3 eexists. apply effect_skip.
  - destruct (Hbody x i) as (js1 & cs1 & bs1 & H1).
    destruct (IH (S i)) as (js2 & cs2 & bs2 & H2).
    exists (js1 ++ js2)%list, (cs1 ++ cs2)%list, (bs1 ++ bs2)%list.
    change (forEach body (x :: r) i) with (body x i ;; forEach body r (S i)).
    now apply effect_seq.
Qed.

Lemma card_filter_effect (params : URLSearchParams) :
  exists js cs bs, effect (card_filter params) js cs bs.
Proof.
  unfold card_filter.
  destruct (0 <? _)%nat; [destruct (0 <? _)%nat|];
    try (do 3 eexists; apply effect_skip).
  apply forEach_some_effect. intros. apply card_occurrence_effect.
Qed.

Section CompilerFacts.
Context {rt : Runtime}.

Lemma range_filters_effect (params : URLSearchParams) :
  effect (range_filters params) []
    (range_conditions params) (range_bindings params).
Proof.
  unfold range_filters, range_conditions, range_bindings, likes_bound,
    date_bound.
  destruct (Params.has params "likes_ge"), (Params.has params "likes_le"),
    (Params.has params "after_date"), (Params.has params "before_date");
    effect_steps; reflexivity.
Qed.

(** The accumulators once every filter has run: the conditions and the
    bindings are those of the filters in the order of the source, and the
    joins of every categorical occurrence are in the join set. *)
Lemma filters_spec (params : URLSearchParams) :
  exists card_cs card_bs,
    conditions (filters params)
    = (deck_name_conditions params ++ card_cs
       ++ categorical_conditions params Race
       ++ categorical_conditions params Attribute
       ++ categorical_conditions params CardType
       ++ categorical_conditions params Setcode
       ++ range_conditions params)%list
    /\ bindings (filters params)
       = (deck_name_bindings params ++ card_bs
          ++ categorical_bindings params Race
          ++ categorical_bindings params Attribute
          ++ categorical_bindings params CardType
          ++ categorical_bindings params Setcode
          ++ range_bindings params)%list
    /\ forall k i,
         (i < occurrences params k)%nat ->
         incl (joins_of k (alias_of (param_name k) i))
           (joins (filters params)).
Proof.
  destruct (card_filter_effect params) as (cjs & ccs & cbs & Hcard).
  pose proof (deck_name_filter_effect params) as Hdeck.
  pose proof (processMultiParamFilter_effect params Race) as Hrace.
  pose proof (processMultiParamFilter_effect params Attribute) as Hattr.
  pose proof (processMultiParamFilter_effect params CardType) as Htype.
  pose proof (processMultiParamFilter_effect params Setcode) as Hset.
  pose proof (range_filters_effect params) as Hrange.
  pose proof (effect_seq _ _ _ _ _ _ _ _
    (effect_seq _ _ _ _ _ _ _ _
      (effect_seq _ _ _ _ _ _ _ _
        (effect_seq _ _ _ _ _ _ _ _
          (effect_seq _ _ _ _ _ _ _ _
            (effect_seq _ _ _ _ _ _ _ _ Hdeck Hcard) Hrace) Hattr) Htype)
      Hset) Hrange) as Hall.
  destruct (Hall empty) as (_ & Hjs & Hcs & Hbs).
  exists ccs, cbs. split; [|split].
  - unfold filters. cbn [param_name joinLogic_of] in Hcs. rewrite Hcs.
    simpl conditions. rewrite <- !app_assoc. reflexivity.
  - unfold filters. cbn [param_name joinLogic_of] in Hbs. rewrite Hbs.
    simpl bindings. rewrite <- !app_assoc. reflexivity.
  - intros k i Hi. unfold filters.
    eapply incl_tran; [|exact Hjs].
    assert (Hk : incl (joins_of k (alias_of (param_name k) i))
                   (collect (fun _ n => joins_of k (alias_of (param_name k) n))
                      (Params.getAll params (param_name k)) 0)).
    { apply (collect_incl_at
               (fun n => joins_of k (alias_of (param_name k) n))).
      unfold occurrences in Hi. lia. }
    eapply incl_tran; [exact Hk|].
    rewrite !app_nil_l, !app_nil_r.
    destruct k; auto 10 using incl_appl, incl_appr, incl_refl.
Qed.

Lemma count_query_shape (params : URLSearchParams) (options : Options) :
  buildSearchQuery params true options
  = mkQuery
      (count_projection ++ joins_text (joins (filters params))
       ++ where_text (conditions (filters params)))
      (bindings (filters params)).
Proof.
  unfold buildSearchQuery, joins_text, where_text, count_projection.
  cbv zeta. cbn [negb].
  destruct (joins (filters params)) as [|j js],
    (conditions (filters params)) as [|c cs];
    cbn [List.length Nat.ltb Nat.leb]; f_equal;
    rewrite ?append_assoc, ?append_empty_r; reflexivity.
Qed.

Lemma data_query_shape (params : URLSearchParams) (options : Options) :
  buildSearchQuery params false options
  = mkQuery
      (data_projection ++ joins_text (joins (filters params))
       ++ where_text (conditions (filters params))
       ++ order_by_text params (reverse options) ++ " LIMIT ? OFFSET ?")
      (bindings (filters params)
       ++ [Js.VNumber (limit options); Js.VNumber (offset options)])%list.
Proof.
  unfold buildSearchQuery, joins_text, where_text, data_projection,
    order_by_text, sort_keys, direction.
  cbv zeta. cbn [negb].
  destruct (joins (filters params)) as [|j js],
    (conditions (filters params)) as [|c cs],
    (_ =? "date"), (reverse options);
    cbn [List.length Nat.ltb Nat.leb fst snd]; f_equal;
    rewrite ?append_assoc, ?append_empty_r; reflexivity.
Qed.

End CompilerFacts.

Section CompilerClaims.
Context {rt : Runtime}.

(** C1. For every set of request parameters, the data statement and the
    count statement have the same join fragments and the same WHERE clause,
    byte for byte, with the same bound filter values in the same order: the
    count statement is its projection followed by these clauses, the data
    statement is its own projection followed by the same clauses, then an
    ORDER BY clause and LIMIT/OFFSET, and its bound values are those of the
    count statement followed by the limit and the offset. *)
Theorem data_and_count_share_joins_and_where
    (params : URLSearchParams) (options count_options : Options) :
  let data := buildSearchQuery params false options in
  let count := buildSearchQuery params true count_options in
  exists clauses order_by,
    clauses = joins_text (joins (filters params))
              ++ where_text (conditions (filters params))
    /\ sql count = count_projection ++ clauses
    /\ sql data = data_projection ++ clauses ++ order_by ++ " LIMIT ? OFFSET ?"
    /\ String.prefix " ORDER BY " order_by = true
    /\ Compiler.params data
       = (Compiler.params count
          ++ [Js.VNumber (limit options); Js.VNumber (offset options)])%list.
Proof.
  intros data count. subst data count.
  rewrite count_query_shape, data_query_shape. cbn [sql Compiler.params].
  exists (joins_text (joins (filters params))
          ++ where_text (conditions (filters params))),
    (order_by_text params (reverse options)).
  repeat split.
  - now rewrite !append_assoc.
  - unfold order_by_text, sort_keys, direction.
    destruct (_ =? "date"), (reverse options); reflexivity.
Qed.

Lemma where_text_nonempty (cs : list string) :
  cs <> [] -> where_text cs = " WHERE " ++ Js.join " AND " cs.
Proof. destruct cs; [congruence | reflexivity]. Qed.

End CompilerClaims.

(** ** The handler *)

Section HandlerFacts.
Context {rt : Runtime}.

Lemma pagination_failure (params : URLSearchParams) (r : Response) :
  pagination params = inl r ->
  status r = 400 /\ exists e, payload r = Failure e.
Proof.
  unfold pagination.
  destruct (Params.get params "start") as [s|]; [|discriminate].
  destruct (_ || _); [intros [= <-]; cbn; eauto|].
  destruct (Params.get params "end") as [e|].
  - destruct (_ || _); [intros [= <-]; cbn; eauto | discriminate].
  - destruct (Params.get params "size") as [z|]; [|discriminate].
    destruct (_ || _); [intros [= <-]; cbn; eauto | discriminate].
Qed.


Lemma shape_status (offset : Js.JsNumber) (d c : D1Result) :
  status (shape offset d c) = 200%nat \/ status (shape offset d c) = 500%nat.
Proof.
  unfold shape. destruct (results c) as [[|row0 rows]|]; cbn; auto.
Qed.

(** Once pagination is resolved: one batch of two statements, and then a
    response whose status is 200 or 500. *)
Lemma execute_run (params : URLSearchParams) (limit offset : Js.JsNumber)
    (db : list PreparedStatement -> BatchOutcome) :
  exists r,
    run db (execute params limit offset)
    = (r, [submitted (execute params limit offset)])
    /\ (status r = 200%nat \/ status r = 500%nat)
    /\ List.length (submitted (execute params limit offset)) = 2%nat.
Proof.
  unfold execute. cbn [run submitted].
  destruct (db _) as [message | d c].
  - eexists. split; [reflexivity|]. cbn. auto.
  - destruct (negb (success d) || negb (success c)).
    + eexists. split; [reflexivity|]. cbn. auto.
    + eexists. split; [reflexivity|]. split; [apply shape_status|reflexivity].
Qed.

End HandlerFacts.

Section HandlerClaims.
Context {rt : Runtime}.

(** C5. Pagination resolution: [start=10] with [end=30] resolves to limit
    20 and offset 10; [start=0] with [size=20] (and no [end]) to limit 20 and
    offset 0; no pagination parameter to limit 10 and offset 0.  The handler
    then goes on to the queries with these values. *)
Theorem pagination_resolution (searchParams : URLSearchParams) :
  (Params.get searchParams "start" = Some "10" ->
   Params.get searchParams "end" = Some "30" ->
   pagination searchParams = inr (Js.Num 20, Js.Num 10)
   /\ handleSearchRequest searchParams
      = execute searchParams (Js.Num 20) (Js.Num 10))
  /\ (Params.get searchParams "start" = Some "0" ->
      Params.get searchParams "end" = None ->
      Params.get searchParams "size" = Some "20" ->
      pagination searchParams = inr (Js.Num 20, Js.Num 0)
      /\ handleSearchRequest searchParams
         = execute searchParams (Js.Num 20) (Js.Num 0))
  /\ (Params.get searchParams "start" = None ->
      Params.get searchParams "end" = None ->
      Params.get searchParams "size" = None ->
      pagination searchParams = inr (Js.Num 10, Js.Num 0)
      /\ handleSearchRequest searchParams
         = execute searchParams (Js.Num 10) (Js.Num 0)).
Proof.
  unfold handleSearchRequest, pagination.
  repeat split; intros;
    repeat match goal with
           | H : Params.get _ _ = _ |- _ => rewrite H; clear H
           end; reflexivity.
Qed.

(** C10. When [start] is absent, [end] and [size] are not read: pagination
    resolves to limit 10 and offset 0 whatever they hold, the handler goes
    on to the queries, and its answer is never a 400. *)
Theorem end_and_size_ignored_without_start (searchParams : URLSearchParams) :
  Params.get searchParams "start" = None ->
  pagination searchParams = inr (Js.Num 10, Js.Num 0)
  /\ handleSearchRequest searchParams
     = execute searchParams (Js.Num 10) (Js.Num 0)
  /\ forall db,
       status (fst (run db (handleSearchRequest searchParams))) <> 400%nat
       /\ storage_calls db (handleSearchRequest searchParams) = 1%nat.
Proof.
  intros Hstart.
  assert (Hp : pagination searchParams = inr (Js.Num 10, Js.Num 0)).
  { unfold pagination. now rewrite Hstart. }
  assert (Hh : handleSearchRequest searchParams
               = execute searchParams (Js.Num 10) (Js.Num 0)).
  { unfold handleSearchRequest. now rewrite Hp. }
  repeat split; auto.
  - rewrite Hh.
    destruct (execute_run searchParams (Js.Num 10) (Js.Num 0) db)
      as (r & -> & [Hs|Hs] & _); cbn [fst]; rewrite Hs; discriminate.
  - rewrite Hh. unfold storage_calls.
    destruct (execute_run searchParams (Js.Num 10) (Js.Num 0) db)
      as (r & -> & _). reflexivity.
Qed.


(** C9. On every request that passes pagination validation the handler
    awaits exactly one storage call: a single batch whose two statements are
    the data statement and the count statement, in this order; whatever the
    outcome, it then returns without another call. *)
Theorem queries_submitted_as_one_batch (searchParams : URLSearchParams)
    (limit offset : Js.JsNumber) :
  pagination searchParams = inr (limit, offset) ->
  exists reverse next,
    let query :=
      buildSearchQuery searchParams false (mkOptions limit offset reverse) in
    let countQuery := buildSearchQuery searchParams true default_options in
    let batch :=
      [bind (prepare (sql query)) (Compiler.params query);
       bind (prepare (sql countQuery)) (Compiler.params countQuery)] in
    handleSearchRequest searchParams = AwaitBatch batch next
    /\ (forall outcome, exists r, next outcome = Return r)
    /\ forall db, snd (run db (handleSearchRequest searchParams)) = [batch].
Proof.
  intros Hp. unfold handleSearchRequest. rewrite Hp.
  unfold execute. do 2 eexists. cbv zeta.
  split; [reflexivity|]. split.
  - intros [message | d c]; [eauto|].
    destruct (negb (success d) || negb (success c)); eauto.
  - intros db. cbn [run].
    destruct (db _) as [message | d c]; [reflexivity|].
    destruct (negb (success d) || negb (success c)); reflexivity.
Qed.

(** C8. In every successful envelope, [size] is the number of rows in
    [list], [list] is the rows of the data result, and [start] is the
    resolved offset; the requested page size does not enter. *)
Theorem response_size_is_row_count (searchParams : URLSearchParams)
    (db : list PreparedStatement -> BatchOutcome)
    (total : Js.JsValue) (start : Js.JsNumber) (size : nat)
    (rows : list Row) :
  payload (fst (run db (handleSearchRequest searchParams)))
  = Success total start size rows ->
  size = List.length rows
  /\ exists limit offset dataResult countResult,
       pagination searchParams = inr (limit, offset)
       /\ start = offset
       /\ db (submitted (handleSearchRequest searchParams))
          = Resolved dataResult countResult
       /\ rows = match results dataResult with
                 | Some returned => returned
                 | None => []
                 end.
Proof.
  unfold handleSearchRequest.
  destruct (pagination searchParams) as [r | [limit offset]] eqn:Hp.
  - cbn [run fst]. intros H.
    destruct (pagination_failure _ _ Hp) as (_ & e & He). congruence.
  - unfold execute. cbn [run submitted].
    destruct (db _) as [message | d c] eqn:Hdb; [discriminate|].
    destruct (negb (success d) || negb (success c)); [discriminate|].
    cbn [run fst]. unfold shape.
    destruct (results c) as [[|row0 more]|]; try discriminate.
    cbn [JsonResponse payload]. intros [= _ <- <- <-].
    split.
    + destruct (results d); reflexivity.
    + exists limit, offset, d, c. repeat split; reflexivity.
Qed.

End HandlerClaims.

(** ** Sorting *)

Section SortingClaims.
Context {rt : Runtime}.

Lemma data_sql_shape (params : URLSearchParams)
    (limit offset : Js.JsNumber) :
  data_sql params limit offset
  = data_projection ++ joins_text (joins (filters params))
    ++ where_text (conditions (filters params))
    ++ order_by_text params
         (match Params.get params "reverse" with
          | Some v => v =? "true"
          | None => false
          end)
    ++ " LIMIT ? OFFSET ?".
Proof.
  unfold data_sql, execute. cbn [submitted statement bind prepare].
  rewrite data_query_shape. reflexivity.
Qed.

(** C7. In the data statement the handler submits: with [order=date] and
    [reverse=true] the ORDER BY clause is update-time ascending, then
    popularity ascending; with the defaults ([order] absent or [rate], no
    [reverse]) it is popularity descending, then update-time descending; and
    in every case both sort columns carry the same direction, ASC when
    [reverse] is the literal [true] and DESC otherwise, the columns
    themselves depending on [order] alone. *)
Theorem sorting_and_reversal (params : URLSearchParams)
    (limit offset : Js.JsNumber) :
  let head :=
    data_projection ++ joins_text (joins (filters params))
    ++ where_text (conditions (filters params)) in
  (Params.get params "order" = Some "date" ->
   Params.get params "reverse" = Some "true" ->
   data_sql params limit offset
   = head ++ " ORDER BY D.update_date ASC, D.deck_like ASC"
     ++ " LIMIT ? OFFSET ?")
  /\ (Params.get params "order" = None
      \/ Params.get params "order" = Some "rate" ->
      Params.get params "reverse" = None ->
      data_sql params limit offset
      = head ++ " ORDER BY D.deck_like DESC, D.update_date DESC"
        ++ " LIMIT ? OFFSET ?")
  /\ (Params.get params "reverse" = Some "true" ->
      data_sql params limit offset
      = head ++ " ORDER BY " ++ fst (sort_keys params) ++ " ASC, "
        ++ snd (sort_keys params) ++ " ASC" ++ " LIMIT ? OFFSET ?")
  /\ (Params.get params "reverse" <> Some "true" ->
      data_sql params limit offset
      = head ++ " ORDER BY " ++ fst (sort_keys params) ++ " DESC, "
        ++ snd (sort_keys params) ++ " DESC" ++ " LIMIT ? OFFSET ?").
Proof.
  intros head. subst head. rewrite data_sql_shape.
  unfold order_by_text.
  split; [|split; [|split]].
  - intros Ho Hr. unfold sort_keys. rewrite Ho, Hr. cbn.
    now rewrite ?append_assoc.
  - intros Ho Hr. unfold sort_keys. rewrite Hr.
    destruct Ho as [-> | ->]; cbn; now rewrite ?append_assoc.
  - intros Hr. rewrite Hr. cbn [String.eqb Ascii.eqb Bool.eqb direction].
    rewrite ?append_assoc. cbn. now rewrite ?append_assoc.
  - intros Hr.
    assert (Hrev : match Params.get params "reverse" with
                   | Some v => v =? "true"
                   | None => false
                   end = false).
    { destruct (Params.get params "reverse") as [v|]; [|reflexivity].
      apply String.eqb_neq. congruence. }
    rewrite Hrev. cbn [direction].
    rewrite ?append_assoc. cbn. now rewrite ?append_assoc.
Qed.

End SortingClaims.

(** ** Parameters the compiler does not validate *)

Section UnvalidatedClaims.
Context {rt : Runtime}.

Lemma malformed_range_binds_NaN (params : URLSearchParams) :
  malformed_range params ->
  In (Js.VNumber Js.NaN) (bindings (filters params)).
Proof.
  intros H.
  destruct (filters_spec params) as (ccs & cbs & _ & Hbs & _).
  rewrite Hbs. do 6 (apply in_or_app; right).
  unfold range_bindings, likes_bound, date_bound.
  destruct H as [[Hh Hv] | [[Hh Hv] | [[Hh Hv] | [Hh Hv]]]];
    rewrite Hh, Hv; cbn [Js.floor_div_1000].
  - apply in_or_app. left. now left.
  - apply in_or_app. right. apply in_or_app. left. now left.
  - do 2 (apply in_or_app; right). apply in_or_app. left. now left.
  - do 3 (apply in_or_app; right). now left.
Qed.

(** C3, as the code has it.  A malformed range parameter raises no
    validation error: the compiler binds [NaN] for it in both statements,
    and a request that passes pagination validation is submitted to the
    storage engine as one batch; the answer is never a 400. *)
Theorem malformed_range_is_not_validated (searchParams : URLSearchParams)
    (limit offset : Js.JsNumber) :
  malformed_range searchParams ->
  pagination searchParams = inr (limit, offset) ->
  ~ rejects_with_400 (handleSearchRequest searchParams)
  /\ (exists data count next,
        handleSearchRequest searchParams = AwaitBatch [data; count] next
        /\ In (Js.VNumber Js.NaN) (values data)
        /\ In (Js.VNumber Js.NaN) (values count))
  /\ forall db,
       storage_calls db (handleSearchRequest searchParams) = 1%nat
       /\ (status (fst (run db (handleSearchRequest searchParams))) = 200%nat
           \/ status (fst (run db (handleSearchRequest searchParams)))
              = 500%nat).
Proof.
  intros Hbad Hp.
  pose proof (malformed_range_binds_NaN _ Hbad) as Hnan.
  unfold handleSearchRequest. rewrite Hp.
  split; [|split].
  - intros (r & Hr & _). discriminate Hr.
  - unfold execute. do 3 eexists. split; [reflexivity|].
    cbn [values bind prepare].
    rewrite data_query_shape, count_query_shape. cbn [Compiler.params].
    split; [apply in_or_app; left|]; exact Hnan.
  - intros db.
    destruct (execute_run searchParams limit offset db) as (r & Hr & Hs & _).
    unfold storage_calls. rewrite Hr. cbn [fst snd List.length].
    split; [reflexivity | exact Hs].
Qed.

Lemma get_delete (params : URLSearchParams) (name other : string) :
  other <> name ->
  Params.get (Params.delete params name) other = Params.get params other.
Proof.
  intros Hne. unfold Params.get, Params.delete.
  induction params as [|[k v] r IH]; [reflexivity|].
  cbn [filter find fst snd].
  destruct (String.eqb_spec k name) as [->|Hk]; cbn [negb].
  - apply String.eqb_neq in Hne. rewrite String.eqb_sym in Hne.
    now rewrite Hne.
  - cbn [find fst snd]. destruct (k =? other); [reflexivity | exact IH].
Qed.

Lemma getAll_delete (params : URLSearchParams) (name other : string) :
  other <> name ->
  Params.getAll (Params.delete params name) other
  = Params.getAll params other.
Proof.
  intros Hne. unfold Params.getAll, Params.delete.
  induction params as [|[k v] r IH]; [reflexivity|].
  cbn [filter fst snd].
  destruct (String.eqb_spec k name) as [->|Hk]; cbn [negb].
  - apply String.eqb_neq in Hne. rewrite String.eqb_sym in Hne.
    now rewrite Hne.
  - cbn [filter fst snd]. destruct (k =? other); cbn [map]; now rewrite IH.
Qed.

Lemma has_delete (params : URLSearchParams) (name other : string) :
  other <> name ->
  Params.has (Params.delete params name) other = Params.has params other.
Proof.
  intros Hne. unfold Params.has, Params.delete.
  induction params as [|[k v] r IH]; [reflexivity|].
  cbn [filter existsb fst snd].
  destruct (String.eqb_spec k name) as [->|Hk]; cbn [negb].
  - apply String.eqb_neq in Hne. rewrite String.eqb_sym in Hne.
    now rewrite Hne.
  - cbn [existsb fst snd]. now rewrite IH.
Qed.

Lemma getAll_delete_same (params : URLSearchParams) (name : string) :
  Params.getAll (Params.delete params name) name = [].
Proof.
  unfold Params.getAll, Params.delete.
  induction params as [|[k v] r IH]; [reflexivity|].
  cbn [filter fst snd].
  destruct (k =? name) eqn:E; cbn [negb]; [exact IH|].
  cbn [filter fst snd]. now rewrite E.
Qed.

Lemma card_filter_without_langs (params : URLSearchParams) (a : Acc) :
  langs_of params = [] -> card_filter params a = a.
Proof.
  intros H. unfold card_filter. rewrite H.
  destruct (0 <? _)%nat; reflexivity.
Qed.

Lemma filters_without_card (params : URLSearchParams) :
  langs_of params = [] ->
  filters params = filters (Params.delete params "card").
Proof.
  intros H. unfold filters, seq_.
  rewrite (card_filter_without_langs params _ H).
  assert (Hc : forall a, card_filter (Params.delete params "card") a = a).
  { intros a. unfold card_filter. now rewrite getAll_delete_same. }
  rewrite Hc.
  unfold deck_name_filter, processMultiParamFilter, range_filters.
  rewrite !has_delete, !get_delete, !getAll_delete by discriminate.
  reflexivity.
Qed.

(** C2, as the code has it.  When [lang] filters down to no allow-listed
    code, the compiler does not fail and the card filter adds no language
    column; it adds nothing at all: no join, no condition (not the
    description match either) and no binding.  The compiled statement is the
    one compiled from the request without its [card] parameters. *)
Theorem card_without_valid_lang_is_ignored (params : URLSearchParams) :
  langs_of params = [] ->
  (forall a, card_filter params a = a)
  /\ forall isCountQuery options,
       buildSearchQuery params isCountQuery options
       = buildSearchQuery (Params.delete params "card") isCountQuery options.
Proof.
  intros H. split.
  - intros a. now apply card_filter_without_langs.
  - intros isCountQuery options. unfold buildSearchQuery.
    rewrite <- (filters_without_card params H).
    now rewrite get_delete by discriminate.
Qed.

End UnvalidatedClaims.

(** * The claims on concrete requests *)

Lemma pagination_resolution_witness :
  pagination Example.start_end = inr (Js.Num 20, Js.Num 10)
  /\ pagination Example.start_size = inr (Js.Num 20, Js.Num 0)
  /\ pagination [] = inr (Js.Num 10, Js.Num 0).
Proof.
  split; [|split].
  - apply (proj1 (pagination_resolution (rt := Sample.runtime)
                    Example.start_end)); reflexivity.
  - apply (proj1 (proj2 (pagination_resolution (rt := Sample.runtime)
                           Example.start_size))); reflexivity.
  - apply (proj2 (proj2 (pagination_resolution (rt := Sample.runtime) [])));
      reflexivity.
Defined.

Lemma end_and_size_ignored_without_start_witness :
  Params.get Example.end_and_size_only "start" = None
  /\ Js.parseInt "abc" = Js.NaN
  /\ pagination Example.end_and_size_only = inr (Js.Num 10, Js.Num 0).
Proof.
  split; [reflexivity|]. split; [reflexivity|].
  apply (end_and_size_ignored_without_start (rt := Sample.runtime)
           Example.end_and_size_only).
  reflexivity.
Defined.



Lemma queries_submitted_as_one_batch_witness :
  pagination Example.start_size = inr (Js.Num 20, Js.Num 0)
  /\ storage_calls Example.five_decks
       (handleSearchRequest (rt := Sample.runtime) Example.start_size) = 1%nat.
Proof.
  split; [reflexivity|].
  destruct (queries_submitted_as_one_batch (rt := Sample.runtime)
              Example.start_size (Js.Num 20) (Js.Num 0) eq_refl)
    as (reverse & next & _ & _ & Hrun).
  unfold storage_calls. rewrite (Hrun Example.five_decks). reflexivity.
Defined.

(** A page of fifty against five matching decks: [size] is 5. *)
Lemma response_size_is_row_count_witness :
  exists total rows,
    payload (fst (run Example.five_decks
                    (handleSearchRequest (rt := Sample.runtime)
                       Example.page_of_fifty)))
    = Success total (Js.Num 0) 5 rows
    /\ 5%nat = List.length rows
    /\ pagination Example.page_of_fifty = inr (Js.Num 50, Js.Num 0).
Proof.
  eexists. eexists. split; [reflexivity|]. split; [|reflexivity].
  refine (proj1 (response_size_is_row_count (rt := Sample.runtime)
                   Example.page_of_fifty Example.five_decks
                   (Js.VNumber (Js.Num 5)) (Js.Num 0) 5 _ eq_refl)).
Defined.

Lemma sorting_and_reversal_witness :
  data_sql (rt := Sample.runtime) Example.by_date_reversed
    (Js.Num 10) (Js.Num 0)
  = "SELECT DISTINCT D.* FROM Decks AS D ORDER BY D.update_date ASC, D.deck_like ASC LIMIT ? OFFSET ?"
  /\ data_sql (rt := Sample.runtime) [] (Js.Num 10) (Js.Num 0)
     = "SELECT DISTINCT D.* FROM Decks AS D ORDER BY D.deck_like DESC, D.update_date DESC LIMIT ? OFFSET ?".
Proof.
  split.
  - apply (proj1 (sorting_and_reversal (rt := Sample.runtime)
                    Example.by_date_reversed (Js.Num 10) (Js.Num 0)));
      reflexivity.
  - apply (proj1 (proj2 (sorting_and_reversal (rt := Sample.runtime)
                           [] (Js.Num 10) (Js.Num 0))));
      [left|]; reflexivity.
Defined.

Lemma malformed_range_is_not_validated_witness :
  malformed_range (rt := Sample.runtime) Example.malformed_date
  /\ pagination Example.malformed_date = inr (Js.Num 10, Js.Num 0)
  /\ storage_calls Example.five_decks
       (handleSearchRequest (rt := Sample.runtime) Example.malformed_date)
     = 1%nat.
Proof.
  assert (Hbad : malformed_range (rt := Sample.runtime)
                   Example.malformed_date).
  { right. right. left. split; reflexivity. }
  split; [exact Hbad|]. split; [reflexivity|].
  apply (malformed_range_is_not_validated (rt := Sample.runtime)
           Example.malformed_date (Js.Num 10) (Js.Num 0) Hbad eq_refl).
Defined.

(** A non-numeric [likes_ge]: no 400, the batch is submitted with [NaN]
    bound. *)
Lemma malformed_likes_reaches_storage :
  Js.parseInt "abc" = Js.NaN
  /\ ~ rejects_with_400
         (handleSearchRequest (rt := Sample.runtime) Example.malformed_likes)
  /\ submitted
       (handleSearchRequest (rt := Sample.runtime) Example.malformed_likes)
     = [ mkStatement
           "SELECT DISTINCT D.* FROM Decks AS D WHERE D.deck_like >= ? ORDER BY D.deck_like DESC, D.update_date DESC LIMIT ? OFFSET ?"
           [Js.VNumber Js.NaN; Js.VNumber (Js.Num 10); Js.VNumber (Js.Num 0)];
         mkStatement
           "SELECT COUNT(DISTINCT D.deck_id) FROM Decks AS D WHERE D.deck_like >= ?"
           [Js.VNumber Js.NaN] ]
  /\ storage_calls Example.five_decks
       (handleSearchRequest (rt := Sample.runtime) Example.malformed_likes)
     = 1%nat
  /\ status (fst (run Example.five_decks
                    (handleSearchRequest (rt := Sample.runtime)
                       Example.malformed_likes))) = 200%nat.
Proof.
  repeat split; try reflexivity.
  intros (r & Hr & _). discriminate Hr.
Qed.

Lemma card_without_valid_lang_is_ignored_witness :
  langs_of Example.card_unknown_lang = []
  /\ Params.getAll Example.card_unknown_lang "card" = ["Ash Blossom"]
  /\ buildSearchQuery (rt := Sample.runtime) Example.card_unknown_lang false
       default_options
     = buildSearchQuery (rt := Sample.runtime) [("lang", "xx")] false
         default_options.
Proof.
  split; [reflexivity|]. split; [reflexivity|].
  apply (proj2 (card_without_valid_lang_is_ignored (rt := Sample.runtime)
                  Example.card_unknown_lang eq_refl)).
Defined.

(** [card] with [lang=xx]: neither statement holds a description match. *)
Lemma card_unknown_lang_has_no_description_condition :
  langs_of Example.card_unknown_lang = []
  /\ Params.getAll Example.card_unknown_lang "card" = ["Ash Blossom"]
  /\ ~ contains "card_text_desc"
         (sql (buildSearchQuery (rt := Sample.runtime)
                 Example.card_unknown_lang false default_options))
  /\ ~ contains "card_text_desc"
         (sql (buildSearchQuery (rt := Sample.runtime)
                 Example.card_unknown_lang true default_options)).
Proof.
  split; [reflexivity|]. split; [reflexivity|].
  split; intros (n & Hn); vm_compute in Hn; discriminate Hn.
Qed.

(** * Further properties of the compiler *)

(** ** Counting placeholders *)

Lemma placeholders_append (a b : string) :
  placeholders (a ++ b) = (placeholders a + placeholders b)%nat.
Proof.
  induction a as [|c a IH]; simpl; [reflexivity|]. rewrite IH. lia.
Qed.

Lemma placeholders_join (sep : string) (l : list string) :
  placeholders sep = 0%nat ->
  placeholders (Js.join sep l) = list_sum (map placeholders l).
Proof.
  intros Hsep. unfold Js.join.
  induction l as [|x [|y r] IH]; simpl in *.
  - reflexivity.
  - lia.
  - rewrite !placeholders_append, Hsep, IH. lia.
Qed.

Lemma letter_is_no_placeholder (c : ascii) :
  is_letter c = true -> Ascii.eqb c "?" = false.
Proof.
  destruct c as [[] [] [] [] [] [] [] []]; try reflexivity;
    intros H; discriminate H.
Qed.

Lemma placeholders_keep_letters (s : string) :
  placeholders (keep_letters s) = 0%nat.
Proof.
  induction s as [|c s IH]; simpl; [reflexivity|].
  destruct (is_letter c) eqn:E; [|exact IH].
  simpl. now rewrite (letter_is_no_placeholder c E), IH.
Qed.

Lemma placeholders_string_of_uint (d : Decimal.uint) :
  placeholders (NilEmpty.string_of_uint d) = 0%nat.
Proof. induction d; simpl; auto. Qed.

Lemma placeholders_index (i : nat) :
  placeholders (Js.index_to_string i) = 0%nat.
Proof. apply placeholders_string_of_uint. Qed.

Lemma placeholders_alias (name : string) (i : nat) :
  placeholders (alias_of name i) = 0%nat.
Proof.
  unfold alias_of.
  now rewrite placeholders_append, placeholders_keep_letters,
    placeholders_index.
Qed.

(** ** The filters, clause by clause *)

Lemma has_as_get (params : URLSearchParams) (name : string) :
  Params.has params name
  = match Params.get params name with Some _ => true | None => false end.
Proof.
  unfold Params.has, Params.get.
  induction params as [|[k v] r IH]; simpl; [reflexivity|].
  destruct (k =? name); [reflexivity | exact IH].
Qed.

Lemma indexed_from {A B : Type} (f : nat -> A -> B) (l : list A) (i : nat) :
  collect (fun x n => [f n x]) l i
  = map (fun ix => f (fst ix) (snd ix)) (combine (seq i (List.length l)) l).
Proof.
  revert i. induction l as [|x r IH]; intros i; simpl; [reflexivity|].
  now rewrite IH.
Qed.

Lemma emits_skip : emits skip [].
Proof. exists []. apply effect_skip. Qed.

Lemma emits_seq (f g : Acc -> Acc) (c1 c2 : list Clause) :
  emits f c1 -> emits g c2 -> emits (f ;; g) (c1 ++ c2).
Proof.
  intros (j1 & H1) (j2 & H2). exists (j1 ++ j2)%list.
  rewrite !map_app, List.concat_app. now apply effect_seq.
Qed.

Lemma emits_forEach {A : Type} (body : A -> nat -> Acc -> Acc)
    (cl : nat -> A -> Clause) (l : list A) :
  (forall x i, emits (body x i) [cl i x]) ->
  forall i,
    emits (forEach body l i)
      (map (fun ix => cl (fst ix) (snd ix))
         (combine (seq i (List.length l)) l)).
Proof.
  intros Hbody.
  induction l as [|x r IH]; intros i.
  - apply emits_skip.
  - change (forEach body (x :: r) i) with (body x i ;; forEach body r (S i)).
    apply (emits_seq _ _ [cl i x]); [apply Hbody | apply IH].
Qed.

Lemma emits_joinLogic (k : Categorical) (value alias : string) :
  emits (joinLogic_of k value alias) [(condition_of k alias, [like value])].
Proof. eexists. apply joinLogic_effect. Qed.

Lemma emits_categorical (params : URLSearchParams) (k : Categorical) :
  emits (processMultiParamFilter params (param_name k) (joinLogic_of k))
    (categorical_clauses params k).
Proof.
  unfold processMultiParamFilter, categorical_clauses, indexed.
  apply (emits_forEach
           (fun value i => joinLogic_of k value (alias_of (param_name k) i))
           (fun i value =>
              (condition_of k (alias_of (param_name k) i), [like value]))).
  intros x i. apply emits_joinLogic.
Qed.

Lemma emits_deck_name (params : URLSearchParams) :
  emits (deck_name_filter params) (deck_name_clauses params).
Proof.
  exists []. unfold deck_name_clauses.
  pose proof (deck_name_filter_effect params) as H.
  unfold deck_name_conditions, deck_name_bindings in H.
  rewrite has_as_get in H.
  destruct (Params.get params "deck_name"); exact H.
Qed.

Lemma collect_constant {A B : Type} (v : B) (l : list A) (i : nat) :
  collect (fun _ _ => [v]) l i = repeat v (List.length l).
Proof.
  revert i. induction l as [|x r IH]; intros i; simpl; [reflexivity|].
  now rewrite IH.
Qed.

Lemma collect_empty {A B : Type} (l : list A) (i : nat) :
  collect (fun _ _ => @nil B) l i = [].
Proof.
  revert i. induction l as [|x r IH]; intros i; simpl; auto.
Qed.

Lemma card_condition_text (langs : list string) (i : nat) :
  "("
  ++ Js.join " OR "
       (map (fun lang =>
               ("C_" ++ ("card" ++ Js.index_to_string i) ++ "." ++ lang
                ++ "_name LIKE ?")%string) langs
        ++ [("C_" ++ ("card" ++ Js.index_to_string i)
             ++ ".card_text_desc LIKE ?")%string])%list
  ++ ")"
  = card_condition langs i.
Proof.
  unfold card_condition, card_columns.
  rewrite map_app, map_map. cbn [map].
  do 4 f_equal.
  apply map_ext. intros lang. cbn. now rewrite ?append_assoc.
Qed.

Lemma emits_card_occurrence (langs : list string) (query : string)
    (i : nat) :
  emits (card_occurrence langs query i)
    [(card_condition langs i,
      repeat (like query) (S (List.length langs)))].
Proof.
  unfold card_occurrence. cbv zeta. eexists.
  eapply effect_eq.
  - repeat effect_step.
    apply effect_forEach with
      (js := fun _ _ => []) (cs := fun _ _ => [])
      (bs := fun _ _ => [like query]).
    intros. apply effect_bindings_push.
  - reflexivity.
  - rewrite collect_empty, card_condition_text. reflexivity.
  - rewrite collect_constant. cbn [map snd List.concat repeat app].
    now rewrite repeat_cons, ?app_nil_r.
Qed.

Lemma emits_card (params : URLSearchParams) :
  emits (card_filter params) (card_clauses params).
Proof.
  unfold card_filter, card_clauses, indexed.
  destruct (langs_of params) as [|lang langs] eqn:Hl.
  - destruct (0 <? _)%nat; apply emits_skip.
  - cbn [List.length Nat.ltb Nat.leb].
    destruct (Params.getAll params "card") as [|q qs] eqn:Hq.
    + apply emits_skip.
    + cbn [List.length Nat.ltb Nat.leb].
      apply (emits_forEach (card_occurrence (lang :: langs))
               (fun i query =>
                  (card_condition (lang :: langs) i,
                   repeat (like query) (S (List.length (lang :: langs)))))).
      intros x i. apply emits_card_occurrence.
Qed.

Section ClauseFacts.
Context {rt : Runtime}.

Lemma emits_range (params : URLSearchParams) :
  emits (range_filters params) (range_clauses params).
Proof.
  exists []. unfold range_clauses, range_clause.
  pose proof (range_filters_effect params) as H.
  unfold range_conditions, range_bindings, likes_bound, date_bound in H.
  rewrite !has_as_get in H. unfold read_date.
  destruct (Params.get params "likes_ge"), (Params.get params "likes_le"),
    (Params.get params "after_date"), (Params.get params "before_date");
    exact H.
Qed.

Lemma emits_filters (params : URLSearchParams) :
  conditions (filters params) = map fst (clauses params)
  /\ bindings (filters params) = List.concat (map snd (clauses params)).
Proof.
  assert (H : emits
                (deck_name_filter params ;;
                 card_filter params ;;
                 processMultiParamFilter params "race" race_joinLogic ;;
                 processMultiParamFilter params "attribute"
                   attribute_joinLogic ;;
                 processMultiParamFilter params "type" type_joinLogic ;;
                 processMultiParamFilter params "setcode" setcode_joinLogic ;;
                 range_filters params)
                (clauses params)).
  { unfold clauses. rewrite !app_assoc.
    apply emits_seq; [|apply emits_range].
    apply emits_seq; [|apply (emits_categorical params Setcode)].
    apply emits_seq; [|apply (emits_categorical params CardType)].
    apply emits_seq; [|apply (emits_categorical params Attribute)].
    apply emits_seq; [|apply (emits_categorical params Race)].
    apply emits_seq; [apply emits_deck_name | apply emits_card]. }
  destruct H as (js & H). destruct (H empty) as (_ & _ & Hc & Hb).
  split; assumption.
Qed.

End ClauseFacts.

(** ** Every placeholder has its value *)

Lemma allowed_lang_has_no_placeholder (l : string) :
  allowed_lang l = true -> placeholders l = 0%nat.
Proof.
  unfold allowed_lang. cbn [existsb]. rewrite orb_false_r.
  destruct (String.eqb_spec l "cn") as [->|_]; [reflexivity|].
  destruct (String.eqb_spec l "en") as [->|_]; [reflexivity|].
  destruct (String.eqb_spec l "jp") as [->|_]; [reflexivity|].
  discriminate.
Qed.

Lemma langs_have_no_placeholder (params : URLSearchParams) :
  Forall (fun l => placeholders l = 0%nat) (langs_of params).
Proof.
  apply Forall_forall. intros l Hl. unfold langs_of in Hl.
  apply filter_In in Hl. now apply allowed_lang_has_no_placeholder.
Qed.

Lemma placeholders_card_condition (langs : list string) (i : nat) :
  Forall (fun l => placeholders l = 0%nat) langs ->
  placeholders (card_condition langs i) = S (List.length langs).
Proof.
  intros Hl. unfold card_condition.
  rewrite !placeholders_append, placeholders_join by reflexivity.
  rewrite map_map.
  assert (Hcols : Forall (fun c => placeholders c = 0%nat)
                    (card_columns langs)).
  { unfold card_columns. apply Forall_app. split.
    - apply Forall_forall. intros c Hc. apply in_map_iff in Hc.
      destruct Hc as (l & <- & Hin). rewrite placeholders_append.
      rewrite Forall_forall in Hl. now rewrite (Hl l Hin).
    - now constructor. }
  assert (Hsum : list_sum
                   (map (fun column =>
                           placeholders
                             ("C_card" ++ Js.index_to_string i ++ "."
                              ++ column ++ " LIKE ?"))
                      (card_columns langs))
                 = List.length (card_columns langs)).
  { induction Hcols as [|c cs Hc _ IH]; [reflexivity|].
    cbn [map list_sum fold_right List.length]. fold (list_sum (map (fun column => placeholders ("C_card" ++ Js.index_to_string i ++ "." ++ column ++ " LIKE ?")) cs)). rewrite IH.
    rewrite !placeholders_append, placeholders_index, Hc. reflexivity. }
  rewrite Hsum. unfold card_columns.
  rewrite length_app, length_map. cbn. lia.
Qed.

Lemma placeholders_condition_of (k : Categorical) (alias : string) :
  placeholders alias = 0%nat -> placeholders (condition_of k alias) = 1%nat.
Proof.
  intros H. destruct k; cbn [condition_of];
    rewrite !placeholders_append, H; reflexivity.
Qed.

Section ParityFacts.
Context {rt : Runtime}.

Lemma clauses_balanced (params : URLSearchParams) :
  Forall (fun cl : Clause => placeholders (fst cl) = List.length (snd cl))
    (clauses params).
Proof.
  assert (Hcat : forall k,
            Forall (fun cl : Clause =>
                      placeholders (fst cl) = List.length (snd cl))
              (categorical_clauses params k)).
  { intros k. apply Forall_forall. intros cl Hin.
    apply in_map_iff in Hin. destruct Hin as (iv & <- & _). cbn [fst snd].
    apply placeholders_condition_of, placeholders_alias. }
  unfold clauses.
  apply Forall_app; split.
  { unfold deck_name_clauses.
    destruct (Params.get params "deck_name"); repeat constructor. }
  apply Forall_app; split.
  { unfold card_clauses.
    pose proof (langs_have_no_placeholder params) as Hl.
    destruct (langs_of params) as [|lang langs]; [constructor|].
    apply Forall_forall. intros cl Hin.
    apply in_map_iff in Hin. destruct Hin as (iq & <- & _). cbn [fst snd].
    rewrite repeat_length. now apply placeholders_card_condition. }
  do 4 (apply Forall_app; split; [apply Hcat|]).
  unfold range_clauses, range_clause.
  destruct (Params.get params "likes_ge"), (Params.get params "likes_le"),
    (Params.get params "after_date"), (Params.get params "before_date");
    repeat constructor.
Qed.

Lemma balanced_sum (cls : list Clause) :
  Forall (fun cl : Clause => placeholders (fst cl) = List.length (snd cl))
    cls ->
  list_sum (map placeholders (map fst cls))
  = List.length (List.concat (map snd cls)).
Proof.
  induction 1 as [|cl cls Hcl _ IH]; [reflexivity|].
  cbn [map List.concat]. rewrite length_app, <- IH, Hcl. reflexivity.
Qed.

End ParityFacts.

(** The joins hold no placeholder. *)

Lemma keeps_clean_skip : keeps_clean skip.
Proof. intros a H. exact H. Qed.

Lemma keeps_clean_seq (f g : Acc -> Acc) :
  keeps_clean f -> keeps_clean g -> keeps_clean (f ;; g).
Proof. intros Hf Hg a H. apply Hg, Hf, H. Qed.

Lemma keeps_clean_joins_add (j : string) :
  placeholders j = 0%nat -> keeps_clean (joins_add j).
Proof.
  intros Hj a H. unfold clean, joins_add in *.
  destruct (in_dec string_dec j (joins a)); [exact H|].
  cbn [joins]. apply Forall_app. split; [exact H | now constructor].
Qed.

Lemma keeps_clean_conditions_push (c : string) :
  keeps_clean (conditions_push c).
Proof. intros a H. exact H. Qed.

Lemma keeps_clean_bindings_push (v : Js.JsValue) :
  keeps_clean (bindings_push v).
Proof. intros a H. exact H. Qed.

Lemma keeps_clean_forEach {A : Type} (body : A -> nat -> Acc -> Acc)
    (l : list A) :
  (forall x i, keeps_clean (body x i)) ->
  forall i, keeps_clean (forEach body l i).
Proof.
  intros Hbody. induction l as [|x r IH]; intros i a H; simpl.
  - exact H.
  - apply IH, Hbody, H.
Qed.

Ltac clean_step :=
  lazymatch goal with
  | |- keeps_clean (_ ;; _) => apply keeps_clean_seq
  | |- keeps_clean (joins_add _) => apply keeps_clean_joins_add
  | |- keeps_clean (conditions_push _) => apply keeps_clean_conditions_push
  | |- keeps_clean (bindings_push _) => apply keeps_clean_bindings_push
  | |- keeps_clean skip => apply keeps_clean_skip
  end.

Lemma keeps_clean_joinLogic (k : Categorical) (value alias : string) :
  placeholders alias = 0%nat -> keeps_clean (joinLogic_of k value alias).
Proof.
  intros H. destruct k; cbn [joinLogic_of];
    unfold race_joinLogic, attribute_joinLogic, type_joinLogic,
      setcode_joinLogic;
    repeat clean_step; rewrite !placeholders_append, H; reflexivity.
Qed.

Lemma keeps_clean_categorical (params : URLSearchParams) (k : Categorical) :
  keeps_clean
    (processMultiParamFilter params (param_name k) (joinLogic_of k)).
Proof.
  unfold processMultiParamFilter. apply keeps_clean_forEach.
  intros x i. apply keeps_clean_joinLogic, placeholders_alias.
Qed.

Lemma keeps_clean_card (params : URLSearchParams) :
  keeps_clean (card_filter params).
Proof.
  unfold card_filter.
  destruct (0 <? _)%nat; [destruct (0 <? _)%nat|];
    try apply keeps_clean_skip.
  apply keeps_clean_forEach. intros x i.
  unfold card_occurrence. cbv zeta.
  repeat clean_step;
    try (rewrite !placeholders_append, placeholders_index; reflexivity).
  apply keeps_clean_forEach. intros. apply keeps_clean_bindings_push.
Qed.

Section Parity.
Context {rt : Runtime}.

Lemma clean_filters (params : URLSearchParams) : clean (filters params).
Proof.
  unfold filters.
  assert (Hd : keeps_clean (deck_name_filter params)).
  { unfold deck_name_filter. destruct (Params.has params "deck_name");
      repeat clean_step. }
  assert (Hr : keeps_clean (range_filters params)).
  { unfold range_filters.
    destruct (Params.has params "likes_ge"), (Params.has params "likes_le"),
      (Params.has params "after_date"), (Params.has params "before_date");
      repeat clean_step. }
  apply keeps_clean_seq; [|exact Hr|constructor].
  apply keeps_clean_seq; [|apply (keeps_clean_categorical params Setcode)].
  apply keeps_clean_seq; [|apply (keeps_clean_categorical params CardType)].
  apply keeps_clean_seq; [|apply (keeps_clean_categorical params Attribute)].
  apply keeps_clean_seq; [|apply (keeps_clean_categorical params Race)].
  apply keeps_clean_seq; [exact Hd | apply keeps_clean_card].
Qed.

Lemma placeholders_joins_text (js : list string) :
  Forall (fun j => placeholders j = 0%nat) js ->
  placeholders (joins_text js) = 0%nat.
Proof.
  intros H. unfold joins_text. destruct js as [|j r]; [reflexivity|].
  rewrite placeholders_append, placeholders_join by reflexivity.
  induction H as [|x xs Hx _ IH]; [reflexivity|].
  cbn [map]. change (placeholders x + list_sum (map placeholders xs) = 0)%nat.
  rewrite Hx. exact IH.
Qed.

Lemma placeholders_where_text (cs : list string) :
  placeholders (where_text cs) = list_sum (map placeholders cs).
Proof.
  unfold where_text. destruct cs as [|c r]; [reflexivity|].
  now rewrite placeholders_append, placeholders_join by reflexivity.
Qed.

Lemma placeholders_order_by (params : URLSearchParams) (reverse : bool) :
  placeholders (order_by_text params reverse) = 0%nat.
Proof.
  unfold order_by_text, sort_keys, direction.
  destruct (_ =? "date"), reverse; reflexivity.
Qed.

Lemma filters_parity (params : URLSearchParams) :
  placeholders (joins_text (joins (filters params))) = 0%nat
  /\ placeholders (where_text (conditions (filters params)))
     = List.length (bindings (filters params)).
Proof.
  destruct (emits_filters params) as (Hc & Hb).
  split.
  - apply placeholders_joins_text, clean_filters.
  - rewrite placeholders_where_text, Hc, Hb.
    apply balanced_sum, clauses_balanced.
Qed.

(** X1. In every compiled statement, data or count, the number of [?]
    placeholders in the text is the number of bound values. *)
Theorem placeholders_match_bound_values (params : URLSearchParams)
    (isCountQuery : bool) (options : Options) :
  placeholders (sql (buildSearchQuery params isCountQuery options))
  = List.length
      (Compiler.params (buildSearchQuery params isCountQuery options)).
Proof.
  destruct (filters_parity params) as (Hj & Hw).
  destruct isCountQuery.
  - rewrite count_query_shape. cbn [sql Compiler.params].
    rewrite !placeholders_append, Hj, Hw. reflexivity.
  - rewrite data_query_shape. cbn [sql Compiler.params].
    rewrite !placeholders_append, Hj, Hw, placeholders_order_by, length_app.
    cbn. lia.
Qed.

(** X2. The WHERE clause is the conditions of the request's clauses joined
    with AND, and the bound values are the values of those clauses, clause
    after clause in the same order (followed, in the data statement, by
    limit and offset); each clause binds as many values as its condition has
    placeholders.  So the value of occurrence [i] of a filter is bound to
    the condition under the alias of occurrence [i]. *)
Theorem statement_follows_clauses (params : URLSearchParams)
    (options : Options) :
  let count := buildSearchQuery params true options in
  let data := buildSearchQuery params false options in
  sql count
  = count_projection ++ joins_text (joins (filters params))
    ++ where_text (map fst (clauses params))
  /\ Compiler.params count = List.concat (map snd (clauses params))
  /\ sql data
     = data_projection ++ joins_text (joins (filters params))
       ++ where_text (map fst (clauses params))
       ++ order_by_text params (reverse options) ++ " LIMIT ? OFFSET ?"
  /\ Compiler.params data
     = (List.concat (map snd (clauses params))
        ++ [Js.VNumber (limit options); Js.VNumber (offset options)])%list
  /\ Forall (fun cl : Clause => placeholders (fst cl) = List.length (snd cl))
       (clauses params).
Proof.
  intros count data. subst count data.
  destruct (emits_filters params) as (Hc & Hb).
  rewrite count_query_shape, data_query_shape. cbn [sql Compiler.params].
  rewrite Hc, Hb. repeat split. apply clauses_balanced.
Qed.

End Parity.

(** ** What the compiler reads *)

Lemma get_as_getAll (params : URLSearchParams) (name : string) :
  Params.get params name = hd_error (Params.getAll params name).
Proof.
  unfold Params.get, Params.getAll.
  induction params as [|[k v] r IH]; simpl; [reflexivity|].
  destruct (k =? name); [reflexivity | exact IH].
Qed.

Section ReadFacts.
Context {rt : Runtime}.

Lemma buildSearchQuery_agree (params params' : URLSearchParams)
    (isCountQuery : bool) (options : Options) :
  (forall name, In name compiler_names ->
     Params.getAll params name = Params.getAll params' name) ->
  buildSearchQuery params isCountQuery options
  = buildSearchQuery params' isCountQuery options.
Proof.
  intros H.
  assert (Hget : forall name, In name compiler_names ->
            Params.get params name = Params.get params' name).
  { intros name Hin. now rewrite !get_as_getAll, (H name Hin). }
  assert (Hhas : forall name, In name compiler_names ->
            Params.has params name = Params.has params' name).
  { intros name Hin. now rewrite !has_as_get, (Hget name Hin). }
  assert (Hf : filters params = filters params').
  { unfold filters, deck_name_filter, card_filter, langs_of,
      processMultiParamFilter, range_filters.
    rewrite (Hhas "deck_name"), (Hget "deck_name"), (H "card"),
      (Hget "lang"), (H "race"), (H "attribute"), (H "type"), (H "setcode"),
      (Hhas "likes_ge"), (Hget "likes_ge"), (Hhas "likes_le"),
      (Hget "likes_le"), (Hhas "after_date"), (Hget "after_date"),
      (Hhas "before_date"), (Hget "before_date")
      by (cbn; tauto).
    reflexivity. }
  unfold buildSearchQuery. rewrite Hf, (Hget "order") by (cbn; tauto).
  reflexivity.
Qed.

(** X3. The compiler and the handler read a request only through the value
    sequences of the parameter names they know: two requests that give every
    such name the same values in the same order compile to the same
    statements and are handled by the same program.  Unknown parameters are
    ignored, and so is the way different names interleave. *)
Theorem only_known_parameters_are_read (params params' : URLSearchParams) :
  ((forall name, In name compiler_names ->
      Params.getAll params name = Params.getAll params' name) ->
   forall isCountQuery options,
     buildSearchQuery params isCountQuery options
     = buildSearchQuery params' isCountQuery options)
  /\ ((forall name, In name handler_names ->
         Params.getAll params name = Params.getAll params' name) ->
      handleSearchRequest params = handleSearchRequest params').
Proof.
  split.
  - intros H isCountQuery options. now apply buildSearchQuery_agree.
  - intros H.
    assert (Hget : forall name, In name handler_names ->
              Params.get params name = Params.get params' name).
    { intros name Hin. now rewrite !get_as_getAll, (H name Hin). }
    assert (Hc : forall isCountQuery options,
              buildSearchQuery params isCountQuery options
              = buildSearchQuery params' isCountQuery options).
    { intros. apply buildSearchQuery_agree. intros name Hin. apply H.
      unfold handler_names. apply in_or_app. now left. }
    unfold handleSearchRequest, pagination.
    rewrite (Hget "start"), (Hget "end"), (Hget "size") by (cbn; tauto).
    assert (He : forall limit offset,
              execute params limit offset = execute params' limit offset).
    { intros. unfold execute.
      rewrite (Hget "reverse"), !Hc by (cbn; tauto). reflexivity. }
    destruct (Params.get params' "start") as [s|]; [|apply He].
    destruct (_ || _); [reflexivity|].
    destruct (Params.get params' "end") as [e|].
    + destruct (_ || _); [reflexivity | apply He].
    + destruct (Params.get params' "size") as [z|]; [|apply He].
      destruct (_ || _); [reflexivity | apply He].
Qed.

End ReadFacts.

(** ** Bound values never reach the text *)

Lemma text_equiv_skip : text_equiv skip skip.
Proof. intros a a' H. exact H. Qed.

Lemma text_equiv_seq (f f' g g' : Acc -> Acc) :
  text_equiv f f' -> text_equiv g g' -> text_equiv (f ;; g) (f' ;; g').
Proof. intros Hf Hg a a' H. apply Hg, Hf, H. Qed.

Lemma text_equiv_joins_add (j : string) :
  text_equiv (joins_add j) (joins_add j).
Proof.
  intros a a' [Hj Hc]. unfold joins_add. rewrite <- Hj.
  destruct (in_dec string_dec j (joins a)); split; cbn; congruence.
Qed.

Lemma text_equiv_conditions_push (c : string) :
  text_equiv (conditions_push c) (conditions_push c).
Proof. intros a a' [Hj Hc]. split; cbn; congruence. Qed.

Lemma text_equiv_bindings_push (v v' : Js.JsValue) :
  text_equiv (bindings_push v) (bindings_push v').
Proof. intros a a' [Hj Hc]. split; cbn; congruence. Qed.

Lemma text_equiv_forEach {A : Type} (body body' : A -> nat -> Acc -> Acc)
    (l l' : list A) :
  List.length l = List.length l' ->
  (forall x x' i, text_equiv (body x i) (body' x' i)) ->
  forall i, text_equiv (forEach body l i) (forEach body' l' i).
Proof.
  intros Hlen Hbody. revert l' Hlen.
  induction l as [|x r IH]; intros [|x' r'] Hlen i; try discriminate Hlen.
  - apply text_equiv_skip.
  - intros a a' H. simpl. apply IH; [now injection Hlen|].
    now apply Hbody.
Qed.

Ltac text_step :=
  lazymatch goal with
  | |- text_equiv (_ ;; _) (_ ;; _) => apply text_equiv_seq
  | |- text_equiv (joins_add _) (joins_add _) => apply text_equiv_joins_add
  | |- text_equiv (conditions_push _) (conditions_push _) =>
      apply text_equiv_conditions_push
  | |- text_equiv (bindings_push _) (bindings_push _) =>
      apply text_equiv_bindings_push
  | |- text_equiv skip skip => apply text_equiv_skip
  end.

Lemma text_equiv_joinLogic (k : Categorical) (value value' alias : string) :
  text_equiv (joinLogic_of k value alias) (joinLogic_of k value' alias).
Proof.
  destruct k; cbn [joinLogic_of];
    unfold race_joinLogic, attribute_joinLogic, type_joinLogic,
      setcode_joinLogic;
    repeat text_step.
Qed.

Lemma has_as_length (params : URLSearchParams) (name : string) :
  Params.has params name
  = (0 <? List.length (Params.getAll params name))%nat.
Proof.
  rewrite has_as_get, get_as_getAll.
  destruct (Params.getAll params name); reflexivity.
Qed.

Section TextFacts.
Context {rt : Runtime}.

Lemma filters_same_text (params params' : URLSearchParams) :
  (forall name, In name bound_names ->
     List.length (Params.getAll params name)
     = List.length (Params.getAll params' name)) ->
  langs_of params = langs_of params' ->
  same_text (filters params) (filters params').
Proof.
  intros Hlen Hlangs.
  assert (Hhas : forall name, In name bound_names ->
            Params.has params name = Params.has params' name).
  { intros name Hin. now rewrite !has_as_length, (Hlen name Hin). }
  assert (Hcat : forall k, In (param_name k) bound_names ->
            text_equiv
              (processMultiParamFilter params (param_name k) (joinLogic_of k))
              (processMultiParamFilter params' (param_name k)
                 (joinLogic_of k))).
  { intros k Hin. unfold processMultiParamFilter.
    apply text_equiv_forEach; [now apply Hlen|].
    intros. apply text_equiv_joinLogic. }
  unfold filters.
  assert (Hall : text_equiv
            (deck_name_filter params ;;
             card_filter params ;;
             processMultiParamFilter params "race" race_joinLogic ;;
             processMultiParamFilter params "attribute" attribute_joinLogic ;;
             processMultiParamFilter params "type" type_joinLogic ;;
             processMultiParamFilter params "setcode" setcode_joinLogic ;;
             range_filters params)
            (deck_name_filter params' ;;
             card_filter params' ;;
             processMultiParamFilter params' "race" race_joinLogic ;;
             processMultiParamFilter params' "attribute" attribute_joinLogic ;;
             processMultiParamFilter params' "type" type_joinLogic ;;
             processMultiParamFilter params' "setcode" setcode_joinLogic ;;
             range_filters params')).
  { apply text_equiv_seq.
    apply text_equiv_seq; [|apply (Hcat Setcode); cbn; tauto].
    apply text_equiv_seq; [|apply (Hcat CardType); cbn; tauto].
    apply text_equiv_seq; [|apply (Hcat Attribute); cbn; tauto].
    apply text_equiv_seq; [|apply (Hcat Race); cbn; tauto].
    apply text_equiv_seq.
    - unfold deck_name_filter.
      rewrite (Hhas "deck_name") by (cbn; tauto).
      destruct (Params.has params' "deck_name"); repeat text_step.
    - unfold card_filter. rewrite Hlangs, (Hlen "card") by (cbn; tauto).
      destruct (0 <? _)%nat; [destruct (0 <? _)%nat|];
        try apply text_equiv_skip.
      apply text_equiv_forEach; [apply Hlen; cbn; tauto|].
      intros x x' i. unfold card_occurrence. cbv zeta.
      repeat text_step.
      apply text_equiv_forEach; [reflexivity|].
      intros. apply text_equiv_bindings_push.
    - unfold range_filters.
      rewrite (Hhas "likes_ge"), (Hhas "likes_le"), (Hhas "after_date"),
        (Hhas "before_date") by (cbn; tauto).
      destruct (Params.has params' "likes_ge"),
        (Params.has params' "likes_le"), (Params.has params' "after_date"),
        (Params.has params' "before_date"); repeat text_step. }
  apply Hall. split; reflexivity.
Qed.

(** X4. The text of a compiled statement does not depend on the values of
    the bound parameters: two requests with the same number of occurrences
    of each of them, the same effective languages, the same sort columns and
    the same reversal compile, in either mode, to the same SQL text.  What the
    caller writes in these parameters reaches the storage engine as bound
    values only. *)
Theorem bound_values_never_reach_the_text (params params' : URLSearchParams)
    (isCountQuery : bool) (options options' : Options) :
  (forall name, In name bound_names ->
     List.length (Params.getAll params name)
     = List.length (Params.getAll params' name)) ->
  langs_of params = langs_of params' ->
  sort_keys params = sort_keys params' ->
  reverse options = reverse options' ->
  sql (buildSearchQuery params isCountQuery options)
  = sql (buildSearchQuery params' isCountQuery options').
Proof.
  intros Hlen Hlangs Horder Hrev.
  destruct (filters_same_text params params' Hlen Hlangs) as (Hj & Hc).
  destruct isCountQuery.
  - rewrite !count_query_shape. cbn [sql]. now rewrite Hj, Hc.
  - rewrite !data_query_shape. cbn [sql].
    unfold order_by_text. now rewrite Hj, Hc, Horder, Hrev.
Qed.

End TextFacts.

Section EdgeFacts.
Context {rt : Runtime}.

(** X5. A request with no active filter (no bound parameter other than
    [card], and either no [card] or no valid language) compiles to the bare
    projections: no JOIN, no WHERE clause, and no bound value besides limit
    and offset. *)
Theorem unfiltered_request_is_bare (params : URLSearchParams)
    (options : Options) :
  (forall name, In name bound_names -> name <> "card" ->
     Params.getAll params name = []) ->
  Params.getAll params "card" = [] \/ langs_of params = [] ->
  buildSearchQuery params true options = mkQuery count_projection []
  /\ buildSearchQuery params false options
     = mkQuery
         (data_projection ++ order_by_text params (reverse options)
          ++ " LIMIT ? OFFSET ?")
         [Js.VNumber (limit options); Js.VNumber (offset options)].
Proof.
  intros Hnone Hcard.
  assert (Hhas : forall name, In name bound_names -> name <> "card" ->
            Params.has params name = false).
  { intros name Hin Hne. now rewrite has_as_length, (Hnone name Hin Hne). }
  assert (Hf : filters params = empty).
  { unfold filters, seq_, deck_name_filter, processMultiParamFilter,
      range_filters.
    rewrite (Hhas "deck_name"), (Hnone "race"), (Hnone "attribute"),
      (Hnone "type"), (Hnone "setcode"), (Hhas "likes_ge"),
      (Hhas "likes_le"), (Hhas "after_date"), (Hhas "before_date")
      by (cbn; intuition discriminate).
    cbn [forEach skip]. unfold card_filter.
    destruct Hcard as [-> | ->]; [reflexivity|].
    destruct (0 <? _)%nat; reflexivity. }
  rewrite count_query_shape, data_query_shape, Hf. cbn.
  split; reflexivity.
Qed.

End EdgeFacts.

(** ** Every occurrence keeps its own joins *)

Lemma adds_skip : adds skip [].
Proof. intros a _. now rewrite app_nil_r. Qed.

Lemma adds_conditions_push (c : string) : adds (conditions_push c) [].
Proof. intros a _. cbn. now rewrite app_nil_r. Qed.

Lemma adds_bindings_push (v : Js.JsValue) : adds (bindings_push v) [].
Proof. intros a _. cbn. now rewrite app_nil_r. Qed.

Lemma adds_joins_add (j : string) : adds (joins_add j) [j].
Proof.
  intros a Hnd. unfold joins_add.
  destruct (in_dec string_dec j (joins a)) as [Hin|Hout]; [|reflexivity].
  exfalso. apply NoDup_remove_2 in Hnd. apply Hnd.
  now rewrite app_nil_r.
Qed.

Lemma adds_seq (f g : Acc -> Acc) (js1 js2 : list string) :
  adds f js1 -> adds g js2 -> adds (f ;; g) (js1 ++ js2).
Proof.
  intros Hf Hg a Hnd. unfold seq_. rewrite app_assoc in Hnd.
  assert (H1 : joins (f a) = (joins a ++ js1)%list).
  { apply Hf. now apply NoDup_app_remove_r in Hnd. }
  rewrite (Hg (f a)); rewrite H1; [now rewrite app_assoc | exact Hnd].
Qed.

Lemma adds_forEach {A : Type} (body : A -> nat -> Acc -> Acc)
    (js : nat -> list string) (l : list A) :
  (forall x i, adds (body x i) (js i)) ->
  forall i, adds (forEach body l i) (flat_map js (seq i (List.length l))).
Proof.
  intros Hbody. induction l as [|x r IH]; intros i.
  - apply adds_skip.
  - change (forEach body (x :: r) i) with (body x i ;; forEach body r (S i)).
    cbn [List.length seq flat_map]. apply adds_seq; [apply Hbody | apply IH].
Qed.

Lemma adds_eq (f : Acc -> Acc) (js js' : list string) :
  adds f js -> js = js' -> adds f js'.
Proof. now intros H <-. Qed.

Ltac adds_step :=
  lazymatch goal with
  | |- adds (_ ;; _) _ => eapply adds_seq
  | |- adds (joins_add _) _ => apply adds_joins_add
  | |- adds (conditions_push _) _ => apply adds_conditions_push
  | |- adds (bindings_push _) _ => apply adds_bindings_push
  | |- adds skip _ => apply adds_skip
  end.

Lemma adds_joinLogic (k : Categorical) (value alias : string) :
  adds (joinLogic_of k value alias) (joins_of k alias).
Proof.
  destruct k; cbn [joinLogic_of];
    unfold race_joinLogic, attribute_joinLogic, type_joinLogic,
      setcode_joinLogic;
    (eapply adds_eq; [repeat adds_step | reflexivity]).
Qed.

Lemma adds_categorical (params : URLSearchParams) (k : Categorical) :
  adds (processMultiParamFilter params (param_name k) (joinLogic_of k))
    (joins_by params (OfCategorical k)).
Proof.
  unfold processMultiParamFilter, joins_by, owner_occurrences, occurrences.
  apply (adds_forEach
           (fun value i => joinLogic_of k value (alias_of (param_name k) i))
           (owner_joins (OfCategorical k))).
  intros x i. apply adds_joinLogic.
Qed.

Lemma adds_card (params : URLSearchParams) :
  adds (card_filter params) (joins_by params OfCard).
Proof.
  unfold card_filter, joins_by, owner_occurrences.
  destruct (langs_of params) as [|lang langs].
  - destruct (0 <? _)%nat; apply adds_skip.
  - cbn [List.length Nat.ltb Nat.leb].
    destruct (Params.getAll params "card") as [|q qs].
    + apply adds_skip.
    + cbn [Nat.ltb Nat.leb List.length].
      apply (adds_forEach (card_occurrence (lang :: langs))
               (owner_joins OfCard)).
      intros x i. unfold card_occurrence. cbv zeta.
      eapply adds_eq.
      * repeat adds_step.
        apply (adds_forEach (fun _ _ => bindings_push (like x))
                 (fun _ => [])).
        intros. apply adds_bindings_push.
      * cbn [owner_joins]. unfold card_joins_of. cbv zeta.
        assert (Hnil : forall n start,
                  flat_map (fun _ : nat => @nil string) (seq start n) = []).
        { induction n; intros; simpl; auto. }
        rewrite Hnil. reflexivity.
Qed.

(** Telling the joins apart. *)

Lemma String_inj (c : ascii) (a b : string) :
  String c a = String c b -> a = b.
Proof. now intros [= ->]. Qed.

Lemma spaces_string_of_uint (d : Decimal.uint) :
  spaces (NilEmpty.string_of_uint d) = 0%nat.
Proof. induction d; simpl; auto. Qed.

Lemma spaces_index (i : nat) : spaces (Js.index_to_string i) = 0%nat.
Proof. apply spaces_string_of_uint. Qed.

Lemma space_ends_word (a b r r' : string) :
  spaces a = 0%nat -> spaces b = 0%nat ->
  a ++ String " " r = b ++ String " " r' -> a = b.
Proof.
  revert b. induction a as [|c a IH]; intros [|d b] Ha Hb H.
  - reflexivity.
  - cbn in H. injection H as Hc _. subst d. cbn in Hb. discriminate Hb.
  - cbn in H. injection H as Hc _. subst c. cbn in Ha. discriminate Ha.
  - cbn in H. injection H as Hc Hr. subst d. f_equal.
    cbn in Ha, Hb.
    destruct (Ascii.eqb c " "); [discriminate Ha|].
    now apply IH.
Qed.

Lemma index_before_space (i j : nat) (r r' : string) :
  Js.index_to_string i ++ String " " r = Js.index_to_string j ++ String " " r'
  -> i = j.
Proof.
  intros H. apply index_to_string_inj.
  apply (space_ends_word _ _ r r'); auto using spaces_index.
Qed.

Ltac same_join H :=
  unfold alias_of in H; cbn in H;
  repeat apply String_inj in H;
  first [ discriminate H | now apply index_before_space in H ].

Lemma owner_joins_unique (o o' : Owner) (i j : nat) (x : string) :
  In x (owner_joins o i) -> In x (owner_joins o' j) -> o = o' /\ i = j.
Proof.
  intros Hi Hj.
  destruct o as [|k], o' as [|k']; try destruct k; try destruct k';
    cbn [owner_joins card_joins_of joins_of param_name In] in Hi, Hj;
    repeat match goal with
           | H : _ \/ _ |- _ => destruct H as [H | H]
           | H : False |- _ => destruct H
           end;
    subst x;
    match goal with
    | H : _ = _ |- _ =>
        first [ exfalso; same_join H
              | split; [reflexivity | same_join H] ]
    end.
Qed.

Lemma owner_joins_NoDup (o : Owner) (i : nat) : NoDup (owner_joins o i).
Proof.
  assert (H3 : forall a b c : string,
            a <> b -> a <> c -> b <> c -> NoDup [a; b; c]).
  { intros a b c Hab Hac Hbc. repeat constructor; cbn; intuition congruence. }
  assert (H2 : forall a b : string, a <> b -> NoDup [a; b]).
  { intros a b Hab. repeat constructor; cbn; intuition congruence. }
  destruct o as [|k]; [|destruct k];
    cbn [owner_joins card_joins_of joins_of param_name];
    first [apply H3 | apply H2];
    intros H; unfold alias_of in H; cbn in H; discriminate H.
Qed.

Lemma joins_by_NoDup (params : URLSearchParams) (o : Owner) :
  NoDup (joins_by params o).
Proof.
  unfold joins_by. generalize (owner_occurrences params o) as n.
  assert (H : forall n start,
            NoDup (flat_map (owner_joins o) (seq start n))
            /\ forall x, In x (flat_map (owner_joins o) (seq start n)) ->
                 exists i, (start <= i)%nat /\ In x (owner_joins o i)).
  { induction n as [|n IH]; intros start; cbn [seq flat_map].
    - split; [constructor | intros x []].
    - destruct (IH (S start)) as (Hnd & Hin). split.
      + apply NoDup_app; [apply owner_joins_NoDup | exact Hnd |].
        intros x Hx Hx'. destruct (Hin x Hx') as (i & Hle & Hi).
        destruct (owner_joins_unique o o start i x Hx Hi) as (_ & E). lia.
      + intros x Hx. apply in_app_or in Hx. destruct Hx as [Hx|Hx].
        * exists start. split; [lia | exact Hx].
        * destruct (Hin x Hx) as (i & Hle & Hi). exists i.
          split; [lia | exact Hi]. }
  intros n. apply H.
Qed.

Lemma joins_by_owner (params : URLSearchParams) (o : Owner) (x : string) :
  In x (joins_by params o) -> exists i, In x (owner_joins o i).
Proof.
  unfold joins_by. intros H. apply in_flat_map in H.
  destruct H as (i & _ & Hi). now exists i.
Qed.

Lemma all_joins_NoDup (params : URLSearchParams) :
  NoDup (all_joins params).
Proof.
  assert (Hdis : forall o o', o <> o' ->
            forall x, In x (joins_by params o) ->
                      ~ In x (joins_by params o')).
  { intros o o' Hne x Hx Hx'.
    destruct (joins_by_owner _ _ _ Hx) as (i & Hi).
    destruct (joins_by_owner _ _ _ Hx') as (j & Hj).
    destruct (owner_joins_unique o o' i j x Hi Hj) as (E & _).
    contradiction. }
  unfold all_joins.
  repeat (apply NoDup_app;
          [apply joins_by_NoDup | |
           intros x Hx Hx';
           repeat (apply in_app_or in Hx'; destruct Hx' as [Hx'|Hx']);
           (eapply Hdis; [|exact Hx|exact Hx']; discriminate)]).
  apply joins_by_NoDup.
Qed.

Section JoinFacts.
Context {rt : Runtime}.

Lemma joins_of_filters (params : URLSearchParams) :
  joins (filters params) = all_joins params.
Proof.
  assert (Hd : adds (deck_name_filter params) []).
  { unfold deck_name_filter. destruct (Params.has params "deck_name");
      [eapply adds_eq; [repeat adds_step | reflexivity] | apply adds_skip]. }
  assert (Hr : adds (range_filters params) []).
  { unfold range_filters.
    destruct (Params.has params "likes_ge"), (Params.has params "likes_le"),
      (Params.has params "after_date"), (Params.has params "before_date");
      (eapply adds_eq; [repeat adds_step | reflexivity]). }
  pose proof (adds_seq _ _ _ _
    (adds_seq _ _ _ _
      (adds_seq _ _ _ _
        (adds_seq _ _ _ _
          (adds_seq _ _ _ _
            (adds_seq _ _ _ _ Hd (adds_card params))
            (adds_categorical params Race))
          (adds_categorical params Attribute))
        (adds_categorical params CardType))
      (adds_categorical params Setcode)) Hr) as Hall.
  unfold filters. cbn [param_name joinLogic_of] in Hall.
  rewrite (Hall empty).
  - cbn [joins empty app]. unfold all_joins.
    now rewrite app_nil_r, <- !app_assoc.
  - cbn [joins empty app]. rewrite app_nil_r, <- !app_assoc.
    apply all_joins_NoDup.
Qed.

(** X18. No join is lost to de-duplication: the join set of a request is
    exactly the joins of its occurrences, two per [card] occurrence (when a
    language is valid) and three per categorical occurrence, in the order
    the filters run, and these joins are pairwise different. *)
Theorem every_occurrence_keeps_its_joins (params : URLSearchParams) :
  joins (filters params) = all_joins params
  /\ NoDup (all_joins params)
  /\ List.length (joins (filters params))
     = (2 * owner_occurrences params OfCard
        + 3 * (occurrences params Race + occurrences params Attribute
               + occurrences params CardType + occurrences params Setcode))%nat.
Proof.
  split; [apply joins_of_filters|]. split; [apply all_joins_NoDup|].
  rewrite joins_of_filters. unfold all_joins.
  assert (Hlen : forall o c,
            (forall i, List.length (owner_joins o i) = c) ->
            List.length (joins_by params o)
            = (c * owner_occurrences params o)%nat).
  { intros o c Hc. unfold joins_by.
    generalize (owner_occurrences params o) as n. intros n.
    generalize 0%nat as start. induction n as [|n IH]; intros start.
    - cbn. lia.
    - cbn [seq flat_map]. rewrite length_app, Hc, IH. lia. }
  rewrite !length_app.
  rewrite (Hlen OfCard 2%nat), (Hlen (OfCategorical Race) 3%nat),
    (Hlen (OfCategorical Attribute) 3%nat),
    (Hlen (OfCategorical CardType) 3%nat),
    (Hlen (OfCategorical Setcode) 3%nat) by (intros; reflexivity).
  cbn [owner_occurrences]. lia.
Qed.

End JoinFacts.

(** ** A repeated categorical filter *)

Lemma categorical_clauses_conditions (params : URLSearchParams)
    (k : Categorical) :
  map fst (categorical_clauses params k)
  = map (condition_of k) (aliases params k).
Proof.
  unfold categorical_clauses, aliases, occurrences, indexed.
  generalize (Params.getAll params (param_name k)) as l.
  generalize 0%nat as i. intros i l. revert i.
  induction l as [|v r IH]; intros i; [reflexivity|].
  cbn [List.length seq combine map fst]. now rewrite IH.
Qed.

Lemma categorical_clauses_values (params : URLSearchParams)
    (k : Categorical) :
  List.concat (map snd (categorical_clauses params k))
  = map like (Params.getAll params (param_name k)).
Proof.
  unfold categorical_clauses, indexed.
  generalize (Params.getAll params (param_name k)) as l.
  generalize 0%nat as i. intros i l. revert i.
  induction l as [|v r IH]; intros i; [reflexivity|].
  cbn [List.length seq combine map snd List.concat app]. now rewrite IH.
Qed.

Lemma categorical_joins_by_alias (params : URLSearchParams)
    (k : Categorical) :
  joins_by params (OfCategorical k)
  = flat_map (joins_of k) (aliases params k).
Proof.
  unfold joins_by, aliases. cbn [owner_occurrences owner_joins].
  generalize (seq 0 (occurrences params k)) as l.
  induction l as [|i r IH]; [reflexivity|].
  cbn [flat_map map]. now rewrite IH.
Qed.

Lemma joins_text_nonempty (js : list string) :
  js <> [] -> joins_text js = " " ++ Js.join " " js.
Proof. destruct js; [congruence | reflexivity]. Qed.

Section CategoricalClaim.
Context {rt : Runtime}.

(** C4. When a categorical key ([race], [attribute], [type], [setcode])
    occurs N >= 1 times, the aliases of its N occurrences (the parameter
    name followed by the occurrence index) are pairwise distinct, and the
    compiled statement is exactly this text: the projection; the joins of
    the request separated by spaces, where the three joins of each of the N
    occurrences stand in a row, each under its own alias, and no two joins
    of the statement are the same; [WHERE]; and the conditions of the
    request separated by [AND] and by nothing else, where the N LIKE
    conditions, one per alias, stand in a row; then, in the data statement
    only, ORDER BY and LIMIT/OFFSET.  The value of occurrence [i] is bound
    to the placeholder of the condition under alias [i]. *)
Theorem repeated_categorical_filter_is_anded
    (params : URLSearchParams) (k : Categorical) (N : nat)
    (options : Options) :
  (1 <= N)%nat ->
  List.length (Params.getAll params (param_name k)) = N ->
  let occurrence_aliases := map (alias_of (param_name k)) (seq 0 N) in
  let statement_joins :=
    (joins_before params k
     ++ flat_map (joins_of k) occurrence_aliases
     ++ joins_after params k)%list in
  let statement_conditions :=
    (map fst (clauses_before params k)
     ++ map (condition_of k) occurrence_aliases
     ++ map fst (clauses_after params k))%list in
  let count := buildSearchQuery params true options in
  let data := buildSearchQuery params false options in
  NoDup occurrence_aliases
  /\ List.length occurrence_aliases = N
  /\ NoDup statement_joins
  /\ sql count
     = count_projection ++ " " ++ Js.join " " statement_joins
       ++ " WHERE " ++ Js.join " AND " statement_conditions
  /\ sql data
     = data_projection ++ " " ++ Js.join " " statement_joins
       ++ " WHERE " ++ Js.join " AND " statement_conditions
       ++ order_by_text params (reverse options) ++ " LIMIT ? OFFSET ?"
  /\ Compiler.params count
     = (List.concat (map snd (clauses_before params k))
        ++ map like (Params.getAll params (param_name k))
        ++ List.concat (map snd (clauses_after params k)))%list
  /\ Compiler.params data
     = (Compiler.params count
        ++ [Js.VNumber (limit options); Js.VNumber (offset options)])%list.
Proof.
  intros HN Hlen occurrence_aliases statement_joins statement_conditions
    count data.
  assert (Hal : aliases params k = occurrence_aliases).
  { unfold occurrence_aliases, aliases, occurrences. now rewrite Hlen. }
  assert (Hcl : clauses params
                = (clauses_before params k ++ categorical_clauses params k
                   ++ clauses_after params k)%list).
  { unfold clauses, clauses_before, clauses_after.
    destruct k; rewrite <- ?app_assoc; reflexivity. }
  assert (Hjs : all_joins params = statement_joins).
  { unfold statement_joins. rewrite <- Hal, <- categorical_joins_by_alias.
    unfold all_joins, joins_before, joins_after.
    destruct k; rewrite <- ?app_assoc, ?app_nil_r; reflexivity. }
  assert (Hcs : map fst (clauses params) = statement_conditions).
  { unfold statement_conditions.
    now rewrite Hcl, !map_app, categorical_clauses_conditions, Hal. }
  assert (Hbs : List.concat (map snd (clauses params))
                = (List.concat (map snd (clauses_before params k))
                   ++ map like (Params.getAll params (param_name k))
                   ++ List.concat (map snd (clauses_after params k)))%list).
  { now rewrite Hcl, !map_app, !List.concat_app, categorical_clauses_values. }
  assert (Hne : occurrence_aliases <> []).
  { unfold occurrence_aliases. destruct N as [|n]; [lia | discriminate]. }
  assert (Hjne : statement_joins <> []).
  { unfold statement_joins. destruct occurrence_aliases as [|a r];
      [congruence|].
    cbn [flat_map]. unfold joins_of. intros E.
    apply app_eq_nil in E. destruct E as [_ E]. discriminate E. }
  assert (Hcne : statement_conditions <> []).
  { unfold statement_conditions. destruct occurrence_aliases as [|a r];
      [congruence|].
    cbn [map]. intros E. apply app_eq_nil in E. destruct E as [_ E].
    discriminate E. }
  destruct (emits_filters params) as (Hc & Hb).
  pose proof (joins_of_filters params) as Hj.
  subst count data. rewrite count_query_shape, data_query_shape.
  cbn [sql Compiler.params].
  rewrite Hj, Hc, Hb, Hjs, Hcs, Hbs.
  rewrite (joins_text_nonempty _ Hjne), (where_text_nonempty _ Hcne).
  split; [apply NoDup_map_seq, alias_of_inj|].
  split; [unfold occurrence_aliases; now rewrite length_map, length_seq|].
  split; [rewrite <- Hjs; apply all_joins_NoDup|].
  split; [now rewrite ?append_assoc|].
  split; [now rewrite ?append_assoc|].
  split; reflexivity.
Qed.

End CategoricalClaim.

(** ** What a statement is made of *)

Section ClosedFacts.
Context {rt : Runtime}.

Lemma clauses_closed (params : URLSearchParams) :
  Forall closed_condition (map fst (clauses params)).
Proof.
  assert (Hfixed : forall c, In c fixed_conditions -> closed_condition c)
    by (intros c H; now left).
  assert (Hcat : forall k,
            Forall closed_condition (map fst (categorical_clauses params k))).
  { intros k. apply Forall_forall. intros c Hin.
    apply in_map_iff in Hin. destruct Hin as (cl & <- & Hcl).
    apply in_map_iff in Hcl. destruct Hcl as (iv & <- & _). cbn [fst].
    right. left. now exists k, (fst iv). }
  unfold clauses. rewrite !map_app.
  apply Forall_app; split.
  { unfold deck_name_clauses.
    destruct (Params.get params "deck_name"); cbn [map fst];
      [|constructor].
    constructor; [|constructor]. apply Hfixed. cbn. tauto. }
  apply Forall_app; split.
  { unfold card_clauses.
    assert (Hl : incl (langs_of params) ["cn"; "en"; "jp"]).
    { intros lang Hin. unfold langs_of in Hin. apply filter_In in Hin.
      destruct Hin as (_ & Hal). unfold allowed_lang in Hal.
      apply existsb_exists in Hal. destruct Hal as (l & Hl & E).
      apply String.eqb_eq in E. now subst l. }
    destruct (langs_of params) as [|lang langs]; [constructor|].
    apply Forall_forall. intros c Hin.
    apply in_map_iff in Hin. destruct Hin as (cl & <- & Hcl).
    apply in_map_iff in Hcl. destruct Hcl as (iq & <- & _). cbn [fst].
    right. right. exists (lang :: langs), (fst iq). now split. }
  do 4 (apply Forall_app; split; [apply Hcat|]).
  assert (Hrange : forall name condition read,
            In condition fixed_conditions ->
            Forall closed_condition
              (map fst (range_clause params name condition read))).
  { intros name condition read Hin. unfold range_clause.
    destruct (Params.get params name); cbn [map fst]; [|constructor].
    constructor; [now apply Hfixed | constructor]. }
  unfold range_clauses. rewrite !map_app.
  do 3 (apply Forall_app; split; [apply Hrange; cbn; tauto|]).
  apply Hrange. cbn. tauto.
Qed.

Lemma all_joins_closed (params : URLSearchParams) :
  Forall closed_join (all_joins params).
Proof.
  apply Forall_forall. intros j Hin. unfold all_joins in Hin.
  repeat (apply in_app_or in Hin; destruct Hin as [Hin | Hin]);
    (apply joins_by_owner in Hin; destruct Hin as (i & Hi);
     eexists; exists i; exact Hi).
Qed.

(** X19. A compiled statement holds no text of the request.  Its joins are
    joins of occurrence indices; its conditions are fixed texts, conditions
    of categorical occurrence indices, or card conditions whose language
    columns are among [cn], [en], [jp]; its ORDER BY clause is one of four
    fixed texts.  What the caller writes in [lang] or [order], like what it
    writes in the bound parameters, is never copied into the statement. *)
Theorem request_text_in_the_statement_is_allow_listed
    (params : URLSearchParams) (options : Options) :
  exists js cs order_by,
    Forall closed_join js
    /\ Forall closed_condition cs
    /\ In order_by order_by_clauses
    /\ sql (buildSearchQuery params true options)
       = count_projection ++ joins_text js ++ where_text cs
    /\ sql (buildSearchQuery params false options)
       = data_projection ++ joins_text js ++ where_text cs
         ++ order_by ++ " LIMIT ? OFFSET ?".
Proof.
  exists (all_joins params), (map fst (clauses params)),
    (order_by_text params (reverse options)).
  destruct (emits_filters params) as (Hc & _).
  split; [apply all_joins_closed|].
  split; [apply clauses_closed|].
  split.
  { unfold order_by_text, sort_keys, direction, order_by_clauses.
    destruct (_ =? "date"), (reverse options); cbn; tauto. }
  rewrite count_query_shape, data_query_shape. cbn [sql].
  rewrite joins_of_filters, Hc. split; reflexivity.
Qed.

End ClosedFacts.

(** * Further properties of the handler *)

Section HandlerExtras.
Context {rt : Runtime}.

Lemma round_to_double_positive (n : Z) :
  (0 < n)%Z ->
  Js.round_to_double n = Js.PosInf
  \/ exists m, Js.round_to_double n = Js.Num m /\ (0 < m)%Z.
Proof.
  intros Hn. unfold Js.round_to_double.
  rewrite (Z.abs_eq n) by lia.
  destruct (n <? 2 ^ 53)%Z eqn:Hsmall; [right; eauto|].
  apply Z.ltb_ge in Hsmall.
  set (e := (Z.log2 n - 52)%Z).
  set (q := Z.shiftr n e).
  set (q' := if ((2 ^ (e - 1) <? n - Z.shiftl q e)
                 || ((n - Z.shiftl q e =? 2 ^ (e - 1)) && Z.odd q))%Z
             then (q + 1)%Z else q).
  destruct (2 ^ 1024 <=? q' * 2 ^ e)%Z.
  - replace (n <? 0)%Z with false by (symmetry; apply Z.ltb_ge; lia).
    now left.
  - right. eexists. split; [reflexivity|].
    assert (Hlog : (53 <= Z.log2 n)%Z).
    { change 53%Z with (Z.log2 (2 ^ 53)). now apply Z.log2_le_mono. }
    assert (He : (0 <= e)%Z) by (unfold e; lia).
    assert (Hpow : (0 < 2 ^ e)%Z) by (apply Z.pow_pos_nonneg; lia).
    assert (Hle : (2 ^ e <= n)%Z).
    { apply Z.le_trans with (2 ^ Z.log2 n)%Z.
      - apply Z.pow_le_mono_r; unfold e; lia.
      - apply Z.log2_spec. lia. }
    assert (Hq : (0 < q)%Z).
    { unfold q. rewrite Z.shiftr_div_pow2 by exact He.
      apply Z.div_str_pos. lia. }
    assert (Hq' : (0 < q')%Z) by (unfold q'; destruct (_ || _)%bool; lia).
    rewrite (Z.sgn_pos n Hn). nia.
Qed.

(** X6. When pagination is accepted, the limit is a positive integer or
    +Infinity and the offset a non-negative integer or +Infinity: neither is
    ever [NaN], negative or -Infinity, and the limit is never 0. *)
Theorem accepted_pagination_is_a_valid_window
    (searchParams : URLSearchParams) (limit offset : Js.JsNumber) :
  pagination searchParams = inr (limit, offset) ->
  (limit = Js.PosInf \/ exists l, limit = Js.Num l /\ (0 < l)%Z)
  /\ (offset = Js.PosInf \/ exists o, offset = Js.Num o /\ (0 <= o)%Z).
Proof.
  assert (Hten : Js.Num 10 = Js.PosInf
                 \/ exists l, Js.Num 10 = Js.Num l /\ (0 < l)%Z).
  { right. exists 10%Z. split; [reflexivity | lia]. }
  unfold pagination.
  destruct (Params.get searchParams "start") as [s|].
  2:{ intros [= <- <-]. split; [exact Hten|].
      right. exists 0%Z. split; [reflexivity | lia]. }
  assert (Hoff : forall start,
            Js.isNaN start || Js.lt start (Js.Num 0) = false ->
            start = Js.PosInf \/ exists o, start = Js.Num o /\ (0 <= o)%Z).
  { intros [|o| |]; cbn; try discriminate; auto.
    intros H. apply Z.ltb_ge in H. right. eauto. }
  destruct (Js.isNaN (Js.parseInt s) || Js.lt (Js.parseInt s) (Js.Num 0))
    eqn:Hstart; [discriminate|].
  pose proof (Hoff _ Hstart) as Hs.
  destruct (Params.get searchParams "end") as [e|].
  - destruct (Js.isNaN (Js.parseInt e)
              || Js.le (Js.parseInt e) (Js.parseInt s)) eqn:Hend;
      [discriminate|].
    intros [= <- <-]. split; [|exact Hs].
    destruct (Js.parseInt e) as [|en| |], (Js.parseInt s) as [|st| |];
      cbn in Hend, Hstart |- *; try discriminate; auto.
    apply Z.leb_gt in Hend. apply round_to_double_positive. lia.
  - destruct (Params.get searchParams "size") as [z|].
    + destruct (Js.isNaN (Js.parseInt z) || Js.le (Js.parseInt z) (Js.Num 0))
        eqn:Hsize; [discriminate|].
      intros [= <- <-]. split; [|exact Hs].
      destruct (Js.parseInt z) as [|n| |]; cbn in Hsize; try discriminate;
        auto.
      apply Z.leb_gt in Hsize. right. eauto.
    + intros [= <- <-]. split; [exact Hten | exact Hs].
Qed.


(** X8. Whatever the request and the storage engine, the handler makes at
    most one storage call: either it answers 400 with no call at all, or it
    submits one batch of two statements and answers 200 or 500. *)
Theorem handler_outcomes (searchParams : URLSearchParams)
    (db : list PreparedStatement -> BatchOutcome) :
  let outcome := run db (handleSearchRequest searchParams) in
  (status (fst outcome) = 400%nat /\ snd outcome = []
   /\ exists r, pagination searchParams = inl r)
  \/ ((status (fst outcome) = 200%nat \/ status (fst outcome) = 500%nat)
      /\ (exists batch, snd outcome = [batch] /\ List.length batch = 2%nat)
      /\ exists limit offset, pagination searchParams = inr (limit, offset)).
Proof.
  unfold handleSearchRequest.
  destruct (pagination searchParams) as [r | [limit offset]] eqn:Hp.
  - left. cbn [run fst snd].
    destruct (pagination_failure _ _ Hp) as (Hs & _).
    split; [exact Hs|]. split; [reflexivity|]. now exists r.
  - right.
    destruct (execute_run searchParams limit offset db) as (r & Hr & Hs & Hl).
    cbv zeta. rewrite Hr. cbn [fst snd].
    split; [exact Hs|]. split.
    + eexists. split; [reflexivity | exact Hl].
    + now exists limit, offset.
Qed.

(** X9. The handler answers 200 exactly when pagination is accepted, the
    batch resolves, both results report success and the count result has a
    first row. *)
Theorem success_exactly_when (searchParams : URLSearchParams)
    (db : list PreparedStatement -> BatchOutcome) :
  status (fst (run db (handleSearchRequest searchParams))) = 200%nat
  <-> exists limit offset dataResult countResult row rest,
        pagination searchParams = inr (limit, offset)
        /\ db (submitted (handleSearchRequest searchParams))
           = Resolved dataResult countResult
        /\ success dataResult = true
        /\ success countResult = true
        /\ results countResult = Some (row :: rest).
Proof.
  unfold handleSearchRequest.
  destruct (pagination searchParams) as [r | [limit offset]] eqn:Hp.
  - cbn [run fst]. destruct (pagination_failure _ _ Hp) as (Hs & _).
    split.
    + rewrite Hs. discriminate.
    + intros (l & o & _ & _ & _ & _ & H & _). discriminate H.
  - unfold execute. cbn [run submitted].
    destruct (db _) as [message | d c] eqn:Hdb.
    + cbn. split; [discriminate|].
      intros (l & o & d & c & row & rest & _ & H & _). discriminate H.
    + destruct (success d) eqn:Hd, (success c) eqn:Hc; cbn [negb orb run fst];
        try (cbn; split; [discriminate|];
             intros (l & o & d' & c' & row & rest & _ & [= <- <-] & H1 & H2 & _);
             congruence).
      unfold shape.
      destruct (results c) as [[|row rest]|] eqn:Hres; cbn.
      * split; [discriminate|].
        intros (l & o & d' & c' & row & rest & _ & [= <- <-] & _ & _ & H).
        congruence.
      * split; [|reflexivity]. intros _.
        exists limit, offset, d, c, row, rest. auto.
      * split; [discriminate|].
        intros (l & o & d' & c' & row & rest & _ & [= <- <-] & _ & _ & H).
        congruence.
Qed.

(** X10. A storage failure is answered 500 with a fixed text: when either
    result of the batch reports failure, the response is the same whatever
    the results hold, so a driver error is never echoed; a rejected batch
    is answered 500 with the rejection's message after a fixed prefix. *)
Theorem storage_failure_is_masked (searchParams : URLSearchParams)
    (db : list PreparedStatement -> BatchOutcome)
    (limit offset : Js.JsNumber) :
  pagination searchParams = inr (limit, offset) ->
  (forall dataResult countResult,
     db (submitted (handleSearchRequest searchParams))
     = Resolved dataResult countResult ->
     success dataResult = false \/ success countResult = false ->
     fst (run db (handleSearchRequest searchParams))
     = JsonResponse (Failure "数据库查询失败。") 500)
  /\ (forall message,
        db (submitted (handleSearchRequest searchParams)) = Rejected message ->
        fst (run db (handleSearchRequest searchParams))
        = JsonResponse (Failure ("服务器内部错误: " ++ message)) 500).
Proof.
  intros Hp. unfold handleSearchRequest. rewrite Hp.
  unfold execute. cbn [run submitted].
  split.
  - intros d c -> Hfail.
    destruct (success d), (success c); cbn [negb orb run fst];
      try reflexivity.
    destruct Hfail; discriminate.
  - intros message ->. reflexivity.
Qed.

Lemma handler_headers (searchParams : URLSearchParams)
    (db : list PreparedStatement -> BatchOutcome) :
  headers (fst (run db (handleSearchRequest searchParams)))
  = headers (JsonResponse (Failure "") 0).
Proof.
  unfold handleSearchRequest, pagination.
  assert (He : forall limit offset,
            headers (fst (run db (execute searchParams limit offset)))
            = headers (JsonResponse (Failure "") 0)).
  { intros. unfold execute. cbn [run].
    destruct (db _) as [message | d c]; [reflexivity|].
    destruct (negb (success d) || negb (success c)); [reflexivity|].
    cbn [run fst]. unfold shape.
    destruct (results c) as [[|row rest]|]; reflexivity. }
  destruct (Params.get searchParams "start") as [s|]; [|apply He].
  destruct (_ || _); [reflexivity|].
  destruct (Params.get searchParams "end") as [e|].
  - destruct (_ || _); [reflexivity | apply He].
  - destruct (Params.get searchParams "size") as [z|]; [|apply He].
    destruct (_ || _); [reflexivity | apply He].
Qed.

(** X11. Every response of the search handler, success or failure, carries
    the JSON content type and the three permissive CORS headers. *)
Theorem every_response_carries_cors_headers (searchParams : URLSearchParams)
    (db : list PreparedStatement -> BatchOutcome) :
  headers (fst (run db (handleSearchRequest searchParams)))
  = [("Content-Type", "application/json;charset=UTF-8");
     ("Access-Control-Allow-Origin", "*");
     ("Access-Control-Allow-Methods", "GET, POST, PUT, DELETE, OPTIONS");
     ("Access-Control-Allow-Headers", "Content-Type, Authorization")].
Proof. rewrite handler_headers. reflexivity. Qed.

(** X12. In a successful envelope, [total] is the value of the
    [COUNT(DISTINCT D.deck_id)] column of the first row of the count result
    when that value is truthy, and 0 otherwise (column missing, 0, [NaN],
    null or empty string). *)
Theorem total_is_the_count_column_or_zero (searchParams : URLSearchParams)
    (db : list PreparedStatement -> BatchOutcome)
    (total : Js.JsValue) (start : Js.JsNumber) (size : nat)
    (rows : list Row) :
  payload (fst (run db (handleSearchRequest searchParams)))
  = Success total start size rows ->
  exists dataResult countResult row rest,
    db (submitted (handleSearchRequest searchParams))
    = Resolved dataResult countResult
    /\ results countResult = Some (row :: rest)
    /\ total = match column row "COUNT(DISTINCT D.deck_id)" with
               | Some v => if Js.truthy v then v else Js.VNumber (Js.Num 0)
               | None => Js.VNumber (Js.Num 0)
               end
    /\ (Js.truthy total = true \/ total = Js.VNumber (Js.Num 0)).
Proof.
  unfold handleSearchRequest.
  destruct (pagination searchParams) as [r | [limit offset]] eqn:Hp.
  - cbn [run fst]. intros H.
    destruct (pagination_failure _ _ Hp) as (_ & e & He). congruence.
  - unfold execute. cbn [run submitted].
    destruct (db _) as [message | d c] eqn:Hdb; [discriminate|].
    destruct (negb (success d) || negb (success c)); [discriminate|].
    cbn [run fst]. unfold shape.
    destruct (results c) as [[|row rest]|] eqn:Hres; try discriminate.
    cbn [JsonResponse payload]. intros [= <- _ _ _].
    exists d, c, row, rest.
    split; [reflexivity|]. split; [exact Hres|]. split; [reflexivity|].
    destruct (column row "COUNT(DISTINCT D.deck_id)") as [v|]; [|now right].
    destruct (Js.truthy v) eqn:Hv; [now left | now right].
Qed.

(** X20. Every statement the handler submits to the storage engine has
    exactly as many bound values as its text has placeholders. *)
Theorem submitted_statements_are_fully_bound
    (searchParams : URLSearchParams) (s : PreparedStatement) :
  In s (submitted (handleSearchRequest searchParams)) ->
  placeholders (statement s) = List.length (values s).
Proof.
  unfold handleSearchRequest.
  destruct (pagination searchParams) as [r | [limit offset]];
    [intros []|].
  unfold execute. cbn [submitted In].
  destruct (filters_parity searchParams) as (Hj & Hw).
  intros [<- | [<- | []]]; cbn [statement values bind prepare].
  - rewrite data_query_shape. cbn [sql Compiler.params].
    rewrite !placeholders_append, Hj, Hw, placeholders_order_by, length_app.
    cbn. lia.
  - rewrite count_query_shape. cbn [sql Compiler.params].
    rewrite !placeholders_append, Hj, Hw. reflexivity.
Qed.

End HandlerExtras.

(** * The router *)

Section RouterFacts.
Context {rt : Runtime}.
Variable handleDeleteRequest : Router.Request -> Router.Task Router.Thrown.
Variable handleRateRequest : Router.Request -> Router.Task Router.Thrown.

Local Abbreviation fetch :=
  (Router.fetch handleDeleteRequest handleRateRequest).

Lemma of_handler_JsonResponse (data : Body) (status : nat) :
  Router.of_handler (JsonResponse data status)
  = Router.JsonResponse (Router.Envelope data) status.
Proof. reflexivity. Qed.



Lemma run_try_catch_lift (p : Program)
    (db : list PreparedStatement -> BatchOutcome) :
  Router.run db (Router.try_catch (Router.lift p))
  = (inl (Router.of_handler (fst (run db p))), snd (run db p)).
Proof.
  induction p as [r | statements next IH]; cbn; [reflexivity|].
  rewrite IH. destruct (run db (next (db statements))) as [r calls].
  reflexivity.
Qed.

Lemma answered_at_once {E : Type} (t : Router.Task E)
    (r : Router.Response)
    (P : Router.Response -> Prop) :
  t = Router.Respond r -> P r ->
  exists r',
    t = Router.Respond r'
    /\ (forall db, snd (Router.run db t) = [])
    /\ P r'.
Proof.
  intros -> HP. exists r. split; [reflexivity|]. split; [|exact HP].
  intros db. reflexivity.
Qed.


(** X14. A GET on the search route is the search handler, unchanged: the
    router submits the same batches and passes the handler's response on as
    it is. *)
Theorem search_route_is_the_search_handler (request : Router.Request)
    (db : list PreparedStatement -> BatchOutcome) :
  Router.method request = "GET" ->
  Router.pathname request = "/api/decks/search" ->
  Router.run db (fetch request)
  = (inl (Router.of_handler
            (fst (run db (handleSearchRequest
                            (Router.searchParams request))))),
     snd (run db (handleSearchRequest (Router.searchParams request)))).
Proof.
  intros Hm Hp. unfold Router.fetch. rewrite Hm, Hp. cbn [String.eqb].
  cbn. apply run_try_catch_lift.
Qed.

(** X15. On each of the five routes a method the route does not accept is
    answered 405 before any handler runs, the delete and rate handlers
    included. *)
Theorem wrong_method_is_rejected (request : Router.Request)
    (methods : list string) :
  In (Router.pathname request, methods) Router.routes ->
  Router.method request <> "OPTIONS" ->
  ~ In (Router.method request) methods ->
  exists r,
    fetch request = Router.Respond r /\ Router.status r = 405%nat.
Proof.
  intros Hroute Hopt Hm. unfold Router.fetch.
  apply String.eqb_neq in Hopt. rewrite Hopt.
  cbn in Hroute.
  destruct Hroute as [[= Hp <-] | [[= Hp <-] | [[= Hp <-] | [[= Hp <-]
                     | [[= Hp <-] | []]]]]];
    rewrite <- Hp; cbn [String.eqb Ascii.eqb Bool.eqb];
    cbn in Hm;
    repeat match goal with
           | |- context [Router.method request =? ?m] =>
               let E := fresh "E" in
               destruct (String.eqb_spec (Router.method request) m) as [E|E];
               [exfalso; apply Hm; rewrite E; tauto|]
           end;
    cbn; eexists; split; reflexivity.
Qed.

(** X16. Apart from the delete and rate routes, the storage engine is
    reached by a GET on the search route only: every other
    request is answered at once, with 204 (OPTIONS), 404 (unknown path, with
    the API documentation in the body), 405 or 501. *)
Theorem only_search_reaches_storage (request : Router.Request) :
  Router.pathname request <> "/api/decks/delete" ->
  Router.pathname request <> "/api/decks/rate" ->
  ~ (Router.method request = "GET"
     /\ Router.pathname request = "/api/decks/search") ->
  exists r,
    fetch request = Router.Respond r
    /\ (forall db, snd (Router.run db (fetch request)) = [])
    /\ In (Router.status r) [204; 404; 405; 501]%nat
    /\ (Router.method request = "OPTIONS" ->
        Router.status r = 204%nat /\ Router.body r = None)
    /\ (Router.method request <> "OPTIONS" ->
        (forall methods,
           ~ In (Router.pathname request, methods) Router.routes) ->
        Router.status r = 404%nat
        /\ Router.body r
           = Some (Router.Object
                     (("success", Router.JBool false)
                      :: ("error", Router.JString "Not Found")
                      :: Router.getApiDocs))).
Proof.
  intros Hdel Hrate Hsearch.
  unfold Router.fetch.
  destruct (String.eqb_spec (Router.method request) "OPTIONS") as [Hopt|Hopt].
  { eapply answered_at_once; [reflexivity|]. cbn. split; [tauto|]. split; [tauto|].
    intros H. contradiction. }
  apply String.eqb_neq in Hdel, Hrate.
  destruct (String.eqb_spec (Router.pathname request) "/api/decks/search")
    as [Hp|Hp].
  { destruct (String.eqb_spec (Router.method request) "GET") as [Hm|Hm];
      [tauto|].
    eapply answered_at_once; [reflexivity|]. cbn. split; [tauto|]. split; [tauto|].
    intros _ H. exfalso. apply (H ["GET"]). rewrite Hp. cbn. tauto. }
  destruct (String.eqb_spec (Router.pathname request) "/api/decks/create")
    as [Hc|Hc].
  { destruct (negb _); (eapply answered_at_once; [reflexivity|]); cbn;
      (split; [tauto|]); (split; [tauto|]);
      intros _ H; exfalso; apply (H ["POST"]); rewrite Hc; cbn; tauto. }
  destruct (String.eqb_spec (Router.pathname request) "/api/decks/update")
    as [Hu|Hu].
  { destruct (negb _ && negb _); (eapply answered_at_once; [reflexivity|]); cbn;
      (split; [tauto|]); (split; [tauto|]);
      intros _ H; exfalso; apply (H ["PUT"; "POST"]); rewrite Hu; cbn;
      tauto. }
  rewrite Hdel, Hrate.
  eapply answered_at_once; [reflexivity|]. cbn. split; [tauto|]. split; [tauto|].
  intros _ _. split; reflexivity.
Qed.

(** X17. Apart from the delete and rate routes, every response of the
    worker carries the three permissive CORS headers. *)
Theorem every_route_carries_cors_headers (request : Router.Request)
    (db : list PreparedStatement -> BatchOutcome) (r : Router.Response) :
  Router.pathname request <> "/api/decks/delete" ->
  Router.pathname request <> "/api/decks/rate" ->
  fst (Router.run db (fetch request)) = inl r ->
  incl
    [("Access-Control-Allow-Origin", "*");
     ("Access-Control-Allow-Methods", "GET, POST, PUT, DELETE, OPTIONS");
     ("Access-Control-Allow-Headers", "Content-Type, Authorization")]
    (Router.headers r).
Proof.
  intros Hdel Hrate. unfold Router.fetch.
  apply String.eqb_neq in Hdel, Hrate.
  assert (Hjson : forall data status,
            incl
              [("Access-Control-Allow-Origin", "*");
               ("Access-Control-Allow-Methods",
                "GET, POST, PUT, DELETE, OPTIONS");
               ("Access-Control-Allow-Headers",
                "Content-Type, Authorization")]
              (Router.headers (Router.JsonResponse data status))).
  { intros. cbn. apply incl_tl, incl_refl. }
  destruct (Router.method request =? "OPTIONS").
  { cbn. intros [= <-]. apply incl_refl. }
  destruct (Router.pathname request =? "/api/decks/search").
  { destruct (negb _).
    - cbn. intros [= <-]. apply Hjson.
    - rewrite run_try_catch_lift. cbn [fst]. intros [= <-].
      cbn [Router.of_handler Router.headers]. rewrite handler_headers.
      cbn. apply incl_tl, incl_refl. }
  destruct (Router.pathname request =? "/api/decks/create").
  { destruct (negb _); cbn; intros [= <-]; apply Hjson. }
  destruct (Router.pathname request =? "/api/decks/update").
  { destruct (negb _ && negb _); cbn; intros [= <-]; apply Hjson. }
  rewrite Hdel, Hrate. cbn. intros [= <-]. apply Hjson.
Qed.

End RouterFacts.

(** * The further properties on concrete requests *)

Lemma only_known_parameters_are_read_witness :
  Params.getAll MoreExamples.tagged "utm_source" = ["mail"]
  /\ handleSearchRequest (rt := Sample.runtime) MoreExamples.tagged
     = handleSearchRequest (rt := Sample.runtime) MoreExamples.untagged.
Proof.
  split; [reflexivity|].
  apply (proj2 (only_known_parameters_are_read (rt := Sample.runtime)
                  MoreExamples.tagged MoreExamples.untagged)).
  intros name Hin. cbn in Hin.
  repeat (destruct Hin as [<- | Hin]; [reflexivity|]). contradiction.
Defined.

Lemma bound_values_never_reach_the_text_witness :
  sql (buildSearchQuery (rt := Sample.runtime) MoreExamples.hostile false
         default_options)
  = sql (buildSearchQuery (rt := Sample.runtime) MoreExamples.harmless false
           default_options).
Proof.
  apply (bound_values_never_reach_the_text (rt := Sample.runtime)
           MoreExamples.hostile MoreExamples.harmless false
           default_options default_options);
    try reflexivity.
  intros name Hin. cbn in Hin.
  repeat (destruct Hin as [<- | Hin]; [reflexivity|]). contradiction.
Defined.

Lemma unfiltered_request_is_bare_witness :
  buildSearchQuery (rt := Sample.runtime) MoreExamples.sorted_only true
    default_options
  = mkQuery "SELECT COUNT(DISTINCT D.deck_id) FROM Decks AS D" [].
Proof.
  apply (proj1 (unfiltered_request_is_bare (rt := Sample.runtime)
                  MoreExamples.sorted_only default_options
                  ltac:(intros name Hin _; cbn in Hin;
                        repeat (destruct Hin as [<- | Hin]; [reflexivity|]);
                        contradiction)
                  (or_introl eq_refl))).
Defined.

Lemma accepted_pagination_is_a_valid_window_witness :
  pagination MoreExamples.huge_size = inr (Js.PosInf, Js.Num 0)
  /\ (Js.PosInf = Js.PosInf
      \/ exists l, Js.PosInf = Js.Num l /\ (0 < l)%Z).
Proof.
  assert (H : pagination MoreExamples.huge_size = inr (Js.PosInf, Js.Num 0))
    by (vm_compute; reflexivity).
  split; [exact H|].
  apply (accepted_pagination_is_a_valid_window MoreExamples.huge_size
           Js.PosInf (Js.Num 0) H).
Defined.


Lemma storage_failure_is_masked_witness :
  pagination Example.start_size = inr (Js.Num 20, Js.Num 0)
  /\ fst (run MoreExamples.failing_count
            (handleSearchRequest (rt := Sample.runtime) Example.start_size))
     = JsonResponse (Failure "数据库查询失败。") 500.
Proof.
  split; [reflexivity|].
  apply (proj1 (storage_failure_is_masked (rt := Sample.runtime)
                  Example.start_size MoreExamples.failing_count
                  (Js.Num 20) (Js.Num 0) eq_refl)
           (mkResult true (Some [Example.deck 1]) None)
           (mkResult false None (Some "D1_ERROR: no such table: Decks"))
           eq_refl).
  right. reflexivity.
Defined.

Lemma total_is_the_count_column_or_zero_witness :
  exists rows,
    payload (fst (run Example.five_decks
                    (handleSearchRequest (rt := Sample.runtime)
                       Example.page_of_fifty)))
    = Success (Js.VNumber (Js.Num 5)) (Js.Num 0) 5 rows
    /\ (Js.truthy (Js.VNumber (Js.Num 5)) = true
        \/ Js.VNumber (Js.Num 5) = Js.VNumber (Js.Num 0)).
Proof.
  eexists. split; [reflexivity|].
  destruct (total_is_the_count_column_or_zero (rt := Sample.runtime)
              Example.page_of_fifty Example.five_decks
              (Js.VNumber (Js.Num 5)) (Js.Num 0) 5 _ eq_refl)
    as (d & c & row & rest & _ & _ & _ & H).
  exact H.
Defined.

Lemma search_route_is_the_search_handler_witness :
  Router.method MoreExamples.get_search = "GET"
  /\ Router.pathname MoreExamples.get_search = "/api/decks/search"
  /\ snd (Router.run Example.five_decks
            (Router.fetch (rt := Sample.runtime) MoreExamples.throwing
               MoreExamples.throwing MoreExamples.get_search))
     = snd (run Example.five_decks
              (handleSearchRequest (rt := Sample.runtime)
                 Example.page_of_fifty)).
Proof.
  split; [reflexivity|]. split; [reflexivity|].
  rewrite (search_route_is_the_search_handler (rt := Sample.runtime)
             MoreExamples.throwing MoreExamples.throwing
             MoreExamples.get_search Example.five_decks eq_refl eq_refl).
  reflexivity.
Defined.

Lemma wrong_method_is_rejected_witness :
  In (Router.pathname MoreExamples.put_rate, ["POST"]) Router.routes
  /\ exists r,
       Router.fetch (rt := Sample.runtime) MoreExamples.throwing
         MoreExamples.throwing MoreExamples.put_rate
       = Router.Respond r
       /\ Router.status r = 405%nat.
Proof.
  assert (Hroute : In (Router.pathname MoreExamples.put_rate, ["POST"])
                     Router.routes) by (cbn; tauto).
  split; [exact Hroute|].
  apply (wrong_method_is_rejected (rt := Sample.runtime)
           MoreExamples.throwing MoreExamples.throwing
           MoreExamples.put_rate ["POST"] Hroute).
  - discriminate.
  - cbn. intros [H | []]. discriminate H.
Defined.

Lemma only_search_reaches_storage_witness :
  (exists r,
     Router.fetch (rt := Sample.runtime) MoreExamples.throwing
       MoreExamples.throwing MoreExamples.post_search
     = Router.Respond r
     /\ In (Router.status r) [204; 404; 405; 501]%nat)
  /\ exists r,
       Router.fetch (rt := Sample.runtime) MoreExamples.throwing
         MoreExamples.throwing MoreExamples.get_unknown
       = Router.Respond r
       /\ Router.status r = 404%nat.
Proof.
  split.
  - destruct (only_search_reaches_storage (rt := Sample.runtime)
                MoreExamples.throwing MoreExamples.throwing
                MoreExamples.post_search)
      as (r & Hr & _ & Hs & _).
    + discriminate.
    + discriminate.
    + intros [H _]. discriminate H.
    + exists r. split; assumption.
  - destruct (only_search_reaches_storage (rt := Sample.runtime)
                MoreExamples.throwing MoreExamples.throwing
                MoreExamples.get_unknown)
      as (r & Hr & _ & _ & _ & H404).
    + discriminate.
    + discriminate.
    + intros [_ H]. discriminate H.
    + exists r. split; [exact Hr|].
      apply H404; [discriminate|].
      intros methods Hin. cbn in Hin.
      repeat (destruct Hin as [Hin | Hin]; [discriminate Hin|]).
      contradiction.
Defined.

Lemma every_route_carries_cors_headers_witness :
  exists r,
    fst (Router.run Example.five_decks
           (Router.fetch (rt := Sample.runtime) MoreExamples.throwing
              MoreExamples.throwing MoreExamples.get_search))
    = inl r
    /\ In ("Access-Control-Allow-Origin", "*") (Router.headers r).
Proof.
  eexists. split; [reflexivity|].
  apply (every_route_carries_cors_headers (rt := Sample.runtime)
           MoreExamples.throwing MoreExamples.throwing
           MoreExamples.get_search Example.five_decks _
           ltac:(discriminate) ltac:(discriminate) eq_refl).
  now left.
Defined.

Lemma submitted_statements_are_fully_bound_witness :
  placeholders
    "SELECT COUNT(DISTINCT D.deck_id) FROM Decks AS D WHERE D.deck_like >= ?"
  = 1%nat.
Proof.
  apply (submitted_statements_are_fully_bound (rt := Sample.runtime)
           Example.malformed_likes
           (mkStatement
              "SELECT COUNT(DISTINCT D.deck_id) FROM Decks AS D WHERE D.deck_like >= ?"
              [Js.VNumber Js.NaN])).
  cbn. right. left. reflexivity.
Defined.


Lemma repeated_categorical_filter_is_anded_witness :
  (1 <= 2)%nat
  /\ List.length (Params.getAll Example.two_races "race") = 2%nat
  /\ sql (buildSearchQuery (rt := Sample.runtime) Example.two_races true
            default_options)
     = count_projection ++ " "
       ++ Js.join " "
            (joins_before Example.two_races Race
             ++ flat_map (joins_of Race)
                  (map (alias_of "race") (seq 0 2))
             ++ joins_after Example.two_races Race)%list
       ++ " WHERE "
       ++ Js.join " AND "
            (map fst (clauses_before Example.two_races Race)
             ++ map (condition_of Race) (map (alias_of "race") (seq 0 2))
             ++ map fst (clauses_after (rt := Sample.runtime)
                           Example.two_races Race))%list.
Proof.
  split; [lia|]. split; [reflexivity|].
  apply (repeated_categorical_filter_is_anded (rt := Sample.runtime)
           Example.two_races Race 2 default_options ltac:(lia) eq_refl).
Defined.

Example two_races_statement :
  count_projection ++ " "
  ++ Js.join " "
       (joins_before Example.two_races Race
        ++ flat_map (joins_of Race) (map (alias_of "race") (seq 0 2))
        ++ joins_after Example.two_races Race)%list
  ++ " WHERE "
  ++ Js.join " AND "
       (map fst (clauses_before Example.two_races Race)
        ++ map (condition_of Race) (map (alias_of "race") (seq 0 2))
        ++ map fst (clauses_after (rt := Sample.runtime)
                      Example.two_races Race))%list
  = "SELECT COUNT(DISTINCT D.deck_id) FROM Decks AS D JOIN DeckCards AS DC_race0 ON D.deck_id = DC_race0.deck_id JOIN CardToRace AS CTR_race0 ON DC_race0.card_id = CTR_race0.card_id JOIN Races AS R_race0 ON CTR_race0.race_code = R_race0.race_code JOIN DeckCards AS DC_race1 ON D.deck_id = DC_race1.deck_id JOIN CardToRace AS CTR_race1 ON DC_race1.card_id = CTR_race1.card_id JOIN Races AS R_race1 ON CTR_race1.race_code = R_race1.race_code JOIN DeckCards AS DC_type0 ON D.deck_id = DC_type0.deck_id JOIN CardToType AS CTT_type0 ON DC_type0.card_id = CTT_type0.card_id JOIN CardTypes AS CT_type0 ON CTT_type0.type_code = CT_type0.type_code WHERE R_race0.race_name LIKE ? AND R_race1.race_name LIKE ? AND CT_type0.type_name LIKE ?".
Proof. reflexivity. Qed.

(** Numbers beyond the exact range of a double. *)

Example parseInt_rounds_to_even :
  Js.parseInt "9007199254740993" = Js.Num 9007199254740992.
Proof. reflexivity. Qed.

Example consecutive_integers_may_coincide :
  rejects_with_400
    (handleSearchRequest (rt := Sample.runtime)
       [("start", "9007199254740992"); ("end", "9007199254740993")]).
Proof. eexists. split; reflexivity. Qed.

Example huge_size_is_infinite :
  pagination MoreExamples.huge_size = inr (Js.PosInf, Js.Num 0).
Proof. vm_compute. reflexivity. Qed.
